(** * Booking lifecycle of the emprius backend: handlers of package [api]
    over the services of package [db].

    The HTTP handlers (HandleGetBooking, HandleAcceptPetition,
    HandleDenyPetition, HandleCancelRequest, HandleReturnBooking,
    HandleCreateBooking, HandleRateBooking) are embedded as programs of a
    small state-and-error monad.  The state is the database together with
    a log of the service calls performed, so that "the update is never
    invoked" is a statement about the log.  The services the handlers call
    ([a.database.UserService], [ToolService], [BookingService]) form an
    interface; an in-memory implementation follows the prose specification. *)

From Stdlib Require Import ZArith NArith String Ascii List Bool Lia DecimalString.
From stdpp Require Import base option gmap strings list fin_maps.

Local Open Scope string_scope.
Local Open Scope Z_scope.

(** ** Values shared by both packages *)

(** [time.Time]: an instant, counted in nanoseconds from the Unix epoch. *)
Definition Time : Type := Z.
Bind Scope Z_scope with Time.

Definition nanosPerSecond : Z := 1000000000.

(** [time.Unix(sec, nsec)]. *)
Definition time_Unix (sec nsec : Z) : Time := sec * nanosPerSecond + nsec.

(** [t.Unix()]: whole seconds since the epoch, rounded down. *)
Definition Unix (t : Time) : Z := t `div` nanosPerSecond.

(** [primitive.ObjectID] is a [12]byte array; it is kept as the number its
    twelve bytes spell in big-endian order. *)
Definition ObjectID : Type := N.
Bind Scope N_scope with ObjectID.

Definition hexDigits : list ascii := list_ascii_of_string "0123456789abcdef".

Definition hexDigit (n : N) : ascii :=
  nth (N.to_nat (n `mod` 16)%N) hexDigits "0"%char.

Definition hexValue (c : ascii) : option N :=
  let n := N_of_ascii c in
  if decide (48 ≤ n ≤ 57)%N then Some (n - 48)%N
  else if decide (97 ≤ n ≤ 102)%N then Some (n - 87)%N
  else if decide (65 ≤ n ≤ 70)%N then Some (n - 55)%N
  else None.

Fixpoint hexEncode (digits : nat) (n : N) (acc : string) : string :=
  match digits with
  | O => acc
  | S d => hexEncode d (n `div` 16)%N (String (hexDigit n) acc)
  end.

Fixpoint hexDecode (s : string) (acc : N) : option N :=
  match s with
  | EmptyString => Some acc
  | String c rest =>
      match hexValue c with
      | Some v => hexDecode rest (acc * 16 + v)%N
      | None => None
      end
  end.

(** [id.Hex()]: the 24 lower-case hexadecimal digits of the identifier. *)
Definition Hex (id : ObjectID) : string := hexEncode 24 id "".

(** [primitive.ObjectIDFromHex]: fails unless the text is exactly 24
    hexadecimal digits. *)
Definition ObjectIDFromHex (s : string) : option ObjectID :=
  if decide (String.length s = 24%nat) then hexDecode s 0%N else None.

(** A Go function returning [(T, error)]. *)
Inductive result (E A : Type) : Type :=
  | Ok (a : A)
  | Error (e : E).
Arguments Ok {E A} a.
Arguments Error {E A} e.

(** ** Package db *)
Module db.

(** [type BookingStatus string] with its five constants. *)
Inductive BookingStatus : Type :=
  | BookingStatusPending
  | BookingStatusAccepted
  | BookingStatusRejected
  | BookingStatusCancelled
  | BookingStatusReturned.

#[export] Instance BookingStatus_eq_dec : EqDecision BookingStatus.
Proof. solve_decision. Defined.

(** Modelled from the spec: the text of the status constants (declared
    in a file of package db that is not part of the sources at hand);
    the glossary of states is Pending, Accepted, Rejected, Cancelled,
    Returned. *)
Definition status_string (s : BookingStatus) : string :=
  match s with
  | BookingStatusPending => "PENDING"
  | BookingStatusAccepted => "ACCEPTED"
  | BookingStatusRejected => "REJECTED"
  | BookingStatusCancelled => "CANCELLED"
  | BookingStatusReturned => "RETURNED"
  end.

Record User : Type := mkUser {
  User_ID : ObjectID;
  User_Email : string;
  User_Name : string
}.

Record Tool : Type := mkTool {
  Tool_ID : Z;
  Tool_UserID : ObjectID
}.

Record Booking : Type := mkBooking {
  ID : ObjectID;
  ToolID : string;
  FromUserID : ObjectID;
  ToUserID : ObjectID;
  StartDate : Time;
  EndDate : Time;
  Contact : string;
  Comments : string;
  Status : BookingStatus;
  CreatedAt : Time;
  UpdatedAt : Time
}.

(** [db.CreateBookingRequest]. *)
Record CreateBookingRequest : Type := mkCreateBookingRequest {
  req_ToolID : string;
  req_StartDate : Time;
  req_EndDate : Time;
  req_Contact : string;
  req_Comments : string
}.

(** A Go [error] of package db, identified by its [Error()] text. *)
Definition error : Type := string.

(** [db.ErrBookingDatesConflict]; the text is the one HandleCreateBooking
    compares against and TestBookingDateConflicts matches. *)
Definition ErrBookingDatesConflict : error :=
  "booking dates conflict with existing booking".

(** The services behind [a.database], as the handlers use them.  A
    look-up that comes back with [err != nil] is [None] (users) or
    [Error] (tools, bookings); a booking or tool that does not exist is
    [Ok None], the [nil, nil] of the Go code.  Look-ups leave the
    database as it is; [UpdateStatus] and [Create] may change it and
    read the clock. *)
Class Services (DB : Type) : Type := {
  GetUserByEmail : DB → string → option User;
  GetUserByID : DB → ObjectID → option User;
  GetToolByID : DB → Z → result error (option Tool);
  Get : DB → ObjectID → result error (option Booking);
  UpdateStatus : Time → ObjectID → BookingStatus → DB → option error * DB;
  Create : Time → CreateBookingRequest → ObjectID → ObjectID → DB →
           result error Booking * DB
}.

(** *** The in-memory database

    The file of package db that implements [BookingService] (the conflict
    detector, [Create], [UpdateStatus], [Get]) and the user and tool
    services is not part of the sources at hand.  The definitions below
    follow the design document: reservation records keyed by identifier,
    the conflict detector of its section 4.1 and the creation steps of its
    section 4.2. *)

(** Modelled from the spec: the persistence collaborator, which "stores
    reservation records keyed by identifier"; users and tools are kept as
    the lists of their records. *)
Record MemDB : Type := mkMemDB {
  users : list User;
  tools : list Tool;
  bookings : gmap ObjectID Booking
}.

(** Modelled from the spec: the overlap test of the conflict detector,
    "existing.start < candidateEnd AND existing.end > candidateStart". *)
Definition overlaps (existing : Booking) (candidateStart candidateEnd : Time) : bool :=
  bool_decide (StartDate existing < candidateEnd ∧ EndDate existing > candidateStart).

(** Modelled from the spec: "fetch all reservations for the given tool
    whose status is Accepted". *)
Definition acceptedForTool (m : gmap ObjectID Booking) (tool : string) : list Booking :=
  filter (λ b, ToolID b = tool ∧ Status b = BookingStatusAccepted)
         ((map_to_list m).*2).

(** Modelled from the spec: [hasConflict(tool, candidateStart,
    candidateEnd)], "returns true if any Accepted reservation overlaps". *)
Definition hasConflict (m : gmap ObjectID Booking) (tool : string)
    (candidateStart candidateEnd : Time) : bool :=
  existsb (λ b, overlaps b candidateStart candidateEnd) (acceptedForTool m tool).

(** Modelled from the spec: the identifier is "unique, assigned at
    creation": one that no stored reservation carries. *)
Definition newObjectID (m : gmap ObjectID Booking) : ObjectID := fresh (dom m).

(** Modelled from the spec: [BookingService.Create], "run Conflict
    Detector against the tool and requested range; if conflict found, fail
    with a DatesConflict error; otherwise persist a new reservation with
    status Pending, created/updated timestamps set to now, and return it".
    The steps do not test start < end, which the design lists as a
    precondition on the caller. *)
Definition MemCreate (now : Time) (req : CreateBookingRequest)
    (fromUserID toUserID : ObjectID) (d : MemDB) : result error Booking * MemDB :=
  if hasConflict (bookings d) (req_ToolID req) (req_StartDate req) (req_EndDate req)
  then (Error ErrBookingDatesConflict, d)
  else
    let booking :=
      {| ID := newObjectID (bookings d);
         ToolID := req_ToolID req;
         FromUserID := fromUserID;
         ToUserID := toUserID;
         StartDate := req_StartDate req;
         EndDate := req_EndDate req;
         Contact := req_Contact req;
         Comments := req_Comments req;
         Status := BookingStatusPending;
         CreatedAt := now;
         UpdatedAt := now |} in
    (Ok booking,
     {| users := users d; tools := tools d;
        bookings := <[ID booking := booking]> (bookings d) |}).

(** Modelled from the spec: a status mutation changes the status and
    refreshes the last-updated timestamp; every other field of a
    reservation is immutable. *)
Definition withStatus (s : BookingStatus) (now : Time) (b : Booking) : Booking :=
  {| ID := ID b; ToolID := ToolID b; FromUserID := FromUserID b;
     ToUserID := ToUserID b; StartDate := StartDate b; EndDate := EndDate b;
     Contact := Contact b; Comments := Comments b;
     Status := s; CreatedAt := CreatedAt b; UpdatedAt := now |}.

(** Modelled from the spec: [BookingService.UpdateStatus], "persist the
    new status and refresh the updated timestamp"; a reservation that is
    not stored is an error. *)
Definition MemUpdateStatus (now : Time) (id : ObjectID) (s : BookingStatus)
    (d : MemDB) : option error * MemDB :=
  match bookings d !! id with
  | Some b =>
      (None, {| users := users d; tools := tools d;
                bookings := <[id := withStatus s now b]> (bookings d) |})
  | None => (Some "booking not found", d)
  end.

(** Modelled from the spec: [Get(reservationID)], "single reservation or
    not-found signal". *)
Definition MemGet (d : MemDB) (id : ObjectID) : result error (option Booking) :=
  Ok (bookings d !! id).

(** Modelled from the spec: the user and tool services are plumbing to
    the design and have no description of their own; a user is looked up
    by e-mail and one that is not stored is an error. *)
Definition MemGetUserByEmail (d : MemDB) (email : string) : option User :=
  head (filter (λ u, User_Email u = email) (users d)).

(** Modelled from the spec: as above, by identifier. *)
Definition MemGetUserByID (d : MemDB) (id : ObjectID) : option User :=
  head (filter (λ u, User_ID u = id) (users d)).

(** Modelled from the spec: a tool is looked up by identifier; one that
    is not stored is [nil] without an error ("tool exists" is tested by
    the caller). *)
Definition MemGetToolByID (d : MemDB) (id : Z) : result error (option Tool) :=
  Ok (head (filter (λ t, Tool_ID t = id) (tools d))).

(** Modelled from the spec: the in-memory database as an implementation
    of the services. *)
#[export] Instance MemServices : Services MemDB := {
  GetUserByEmail := MemGetUserByEmail;
  GetUserByID := MemGetUserByID;
  GetToolByID := MemGetToolByID;
  Get := MemGet;
  UpdateStatus := MemUpdateStatus;
  Create := MemCreate
}.

(** The listing queries of [BookingService], as the listing handlers use
    them: the bookings found, or [err != nil]. *)
Class ListServices (DB : Type) : Type := {
  GetUserRequests : DB → ObjectID → result error (list Booking);
  GetUserPetitions : DB → ObjectID → result error (list Booking);
  GetPendingRatings : DB → ObjectID → result error (list Booking)
}.

End db.

(** ** Package api *)
Module api.
Import db.

(** The error values the booking handlers return.  They are declared in
    a file of package api outside the sources at hand; the handlers only
    name them. *)
Inductive APIError : Type :=
  | ErrUnauthorized
  | ErrUserNotFound
  | ErrInternalServerError
  | ErrInvalidRequestBodyData
  | ErrBookingNotFound
  | ErrToolNotFound
  | ErrOnlyOwnerCanAccept
  | ErrCanOnlyAcceptPending
  | ErrOnlyOwnerCanDeny
  | ErrCanOnlyDenyPending
  | ErrOnlyRequesterCanCancel
  | ErrCanOnlyCancelPending
  | ErrOnlyOwnerCanReturn
  | ErrBookingDatesConflict
  | ErrUserNotInvolved
  | ErrInvalidRating.

#[export] Instance APIError_eq_dec : EqDecision APIError.
Proof. solve_decision. Defined.

Inductive ErrorKind : Type :=
  | ValidationError
  | ConflictError
  | NotFoundError
  | RoleError
  | StateError
  | AuthError
  | InternalError.

(** Modelled from the spec: the error taxonomy of the design (section 7)
    read over the error values of the handlers.  A RoleError is an actor
    without permission for the transition, a StateError a reservation
    not in a state that permits it, a ConflictError is DatesConflict. *)
Definition error_kind (e : APIError) : ErrorKind :=
  match e with
  | ErrUnauthorized => AuthError
  | ErrUserNotFound | ErrBookingNotFound | ErrToolNotFound => NotFoundError
  | ErrInternalServerError => InternalError
  | ErrInvalidRequestBodyData | ErrInvalidRating => ValidationError
  | ErrOnlyOwnerCanAccept | ErrOnlyOwnerCanDeny
  | ErrOnlyRequesterCanCancel | ErrOnlyOwnerCanReturn
  | ErrUserNotInvolved => RoleError
  | ErrCanOnlyAcceptPending | ErrCanOnlyDenyPending
  | ErrCanOnlyCancelPending => StateError
  | ErrBookingDatesConflict => ConflictError
  end.

(** [HTTPContext]: what the handlers read of it are the route
    parameters that chi matched in the URL. *)
Record HTTPContext : Type := mkHTTPContext {
  RouteParams : gmap string string
}.

(** [chi.URLParam]: the empty string when the key was not matched. *)
Definition URLParam (h : HTTPContext) (key : string) : string :=
  default "" (RouteParams h !! key).

Record Request : Type := mkRequest {
  Data : list Byte.byte;
  Path : list string;
  Context : HTTPContext;
  UserID : string
}.

Record CreateBookingRequest : Type := mkCreateBookingRequest {
  cbr_ToolID : string;
  cbr_StartDate : Z;
  cbr_EndDate : Z;
  cbr_Contact : string;
  cbr_Comments : string
}.

Record RateRequest : Type := mkRateRequest {
  Rating : Z;
  BookingID : string
}.

Record BookingResponse : Type := mkBookingResponse {
  resp_ID : string;
  resp_ToolID : string;
  resp_FromUserID : string;
  resp_ToUserID : string;
  resp_StartDate : Z;
  resp_EndDate : Z;
  resp_Contact : string;
  resp_Comments : string;
  resp_BookingStatus : string;
  resp_CreatedAt : Time;
  resp_UpdatedAt : Time
}.

(** The [interface{}] a handler returns next to its error. *)
Inductive Payload : Type :=
  | Nil
  | OneBooking (b : BookingResponse).

Definition convertBookingToResponse (booking : Booking) : BookingResponse :=
  {| resp_ID := Hex (ID booking);
     resp_ToolID := ToolID booking;
     resp_FromUserID := Hex (FromUserID booking);
     resp_ToUserID := Hex (ToUserID booking);
     resp_StartDate := Unix (StartDate booking);
     resp_EndDate := Unix (EndDate booking);
     resp_Contact := Contact booking;
     resp_Comments := Comments booking;
     resp_BookingStatus := status_string (Status booking);
     resp_CreatedAt := CreatedAt booking;
     resp_UpdatedAt := UpdatedAt booking |}.

(** The standard-library calls of the handlers whose result depends on
    the request body: [json.Unmarshal] into the two request types,
    [strconv.ParseInt(s, 10, 64)] and [fmt.Sprintf("%d", n)].  [None] is
    [err != nil]. *)
Class Codec : Type := {
  UnmarshalCreateBookingRequest : list Byte.byte → option CreateBookingRequest;
  UnmarshalRateRequest : list Byte.byte → option RateRequest;
  ParseInt : string → option Z;
  FormatInt : Z → string
}.

(** One entry of the log per call of a service. *)
Inductive Call : Type :=
  | CallGetUserByEmail (email : string)
  | CallGetUserByID (id : ObjectID)
  | CallGetToolByID (id : Z)
  | CallGet (id : ObjectID)
  | CallUpdateStatus (id : ObjectID) (status : BookingStatus)
  | CallCreate (req : db.CreateBookingRequest) (fromUser toUser : ObjectID).

(** The calls that write to the booking collection. *)
Definition isWrite (c : Call) : bool :=
  match c with
  | CallUpdateStatus _ _ | CallCreate _ _ _ => true
  | _ => false
  end.

Section Handlers.
Context {DB : Type} `{!Services DB} `{!Codec}.

(** The state a handler runs in: the database and the service calls
    made so far, most recent first. *)
Record World : Type := mkWorld {
  database : DB;
  calls : list Call
}.

Definition Handler (A : Type) : Type := World → result APIError A * World.

Definition ret {A} (a : A) : Handler A := λ w, (Ok a, w).

(** [return nil, err]. *)
Definition fail {A} (e : APIError) : Handler A := λ w, (Error e, w).

Definition bind {A B} (c : Handler A) (k : A → Handler B) : Handler B :=
  λ w, match c w with
       | (Ok a, w') => k a w'
       | (Error e, w') => (Error e, w')
       end.

Definition logged (c : Call) (w : World) : World :=
  {| database := database w; calls := c :: calls w |}.

(** [x, err := f(...); if err != nil { return nil, e }] for the two
    shapes of service result. *)
Definition orFail {A} (e : APIError) (o : option A) : Handler A :=
  match o with Some a => ret a | None => fail e end.

Definition okOrFail {A} (e : APIError) (r : result error A) : Handler A :=
  match r with Ok a => ret a | Error _ => fail e end.

Definition svcGetUserByEmail (email : string) : Handler (option User) :=
  λ w, (Ok (GetUserByEmail (database w) email),
        logged (CallGetUserByEmail email) w).

Definition svcGetUserByID (id : ObjectID) : Handler (option User) :=
  λ w, (Ok (GetUserByID (database w) id), logged (CallGetUserByID id) w).

Definition svcGetToolByID (id : Z) : Handler (result error (option Tool)) :=
  λ w, (Ok (GetToolByID (database w) id), logged (CallGetToolByID id) w).

Definition svcGet (id : ObjectID) : Handler (result error (option Booking)) :=
  λ w, (Ok (Get (database w) id), logged (CallGet id) w).

Definition svcUpdateStatus (now : Time) (id : ObjectID) (s : BookingStatus)
  : Handler (option error) :=
  λ w, let '(err, d) := UpdateStatus now id s (database w) in
       (Ok err, {| database := d; calls := CallUpdateStatus id s :: calls w |}).

Definition svcCreate (now : Time) (req : db.CreateBookingRequest)
    (fromUser toUser : ObjectID) : Handler (result error Booking) :=
  λ w, let '(res, d) := Create now req fromUser toUser (database w) in
       (Ok res, {| database := d;
                   calls := CallCreate req fromUser toUser :: calls w |}).

(** A handler started on a database with an empty log. *)
Definition run {A} (h : Handler A) (d : DB) : result APIError A * World :=
  h {| database := d; calls := [] |}.

Notation "x <- c ;; k" := (bind c (λ x, k))
  (at level 100, c at next level, right associativity, only parsing).

(** HandleGetBooking handles GET /bookings/{bookingId}. *)
Definition HandleGetBooking (r : Request) : Handler Payload :=
  bookingID <- orFail ErrInvalidRequestBodyData
                 (ObjectIDFromHex (URLParam (Context r) "bookingId")) ;;
  found <- svcGet bookingID ;;
  booking <- okOrFail ErrInternalServerError found ;;
  match booking with
  | None => fail ErrBookingNotFound
  | Some booking => ret (OneBooking (convertBookingToResponse booking))
  end.

(** HandleAcceptPetition handles POST /bookings/petitions/{petitionId}/accept. *)
Definition HandleAcceptPetition (now : Time) (r : Request) : Handler Payload :=
  if decide (UserID r = "") then fail ErrUnauthorized else
  found <- svcGetUserByEmail (UserID r) ;;
  user <- orFail ErrUserNotFound found ;;
  petitionID <- orFail ErrInvalidRequestBodyData
                  (ObjectIDFromHex (URLParam (Context r) "petitionId")) ;;
  found <- svcGet petitionID ;;
  booking <- okOrFail ErrInternalServerError found ;;
  match booking with
  | None => fail ErrBookingNotFound
  | Some booking =>
      if decide (ToUserID booking ≠ User_ID user) then fail ErrOnlyOwnerCanAccept else
      if decide (Status booking ≠ BookingStatusPending)
      then fail ErrCanOnlyAcceptPending else
      err <- svcUpdateStatus now petitionID BookingStatusAccepted ;;
      match err with
      | Some _ => fail ErrInternalServerError
      | None => ret Nil
      end
  end.

(** HandleDenyPetition handles POST /bookings/petitions/{petitionId}/deny. *)
Definition HandleDenyPetition (now : Time) (r : Request) : Handler Payload :=
  if decide (UserID r = "") then fail ErrUnauthorized else
  found <- svcGetUserByEmail (UserID r) ;;
  user <- orFail ErrUserNotFound found ;;
  petitionID <- orFail ErrInvalidRequestBodyData
                  (ObjectIDFromHex (URLParam (Context r) "petitionId")) ;;
  found <- svcGet petitionID ;;
  booking <- okOrFail ErrInternalServerError found ;;
  match booking with
  | None => fail ErrBookingNotFound
  | Some booking =>
      if decide (ToUserID booking ≠ User_ID user) then fail ErrOnlyOwnerCanDeny else
      if decide (Status booking ≠ BookingStatusPending)
      then fail ErrCanOnlyDenyPending else
      err <- svcUpdateStatus now petitionID BookingStatusRejected ;;
      match err with
      | Some _ => fail ErrInternalServerError
      | None => ret Nil
      end
  end.

(** HandleCancelRequest handles POST /bookings/request/{petitionId}/cancel. *)
Definition HandleCancelRequest (now : Time) (r : Request) : Handler Payload :=
  if decide (UserID r = "") then fail ErrUnauthorized else
  found <- svcGetUserByEmail (UserID r) ;;
  user <- orFail ErrUserNotFound found ;;
  petitionID <- orFail ErrInvalidRequestBodyData
                  (ObjectIDFromHex (URLParam (Context r) "petitionId")) ;;
  found <- svcGet petitionID ;;
  booking <- okOrFail ErrInternalServerError found ;;
  match booking with
  | None => fail ErrBookingNotFound
  | Some booking =>
      if decide (FromUserID booking ≠ User_ID user)
      then fail ErrOnlyRequesterCanCancel else
      if decide (Status booking ≠ BookingStatusPending)
      then fail ErrCanOnlyCancelPending else
      err <- svcUpdateStatus now petitionID BookingStatusCancelled ;;
      match err with
      | Some _ => fail ErrInternalServerError
      | None => ret Nil
      end
  end.

(** HandleReturnBooking handles POST /bookings/{bookingId}/return. *)
Definition HandleReturnBooking (now : Time) (r : Request) : Handler Payload :=
  if decide (UserID r = "") then fail ErrUnauthorized else
  found <- svcGetUserByEmail (UserID r) ;;
  user <- orFail ErrUserNotFound found ;;
  bookingID <- orFail ErrInvalidRequestBodyData
                 (ObjectIDFromHex (URLParam (Context r) "bookingId")) ;;
  found <- svcGet bookingID ;;
  booking <- okOrFail ErrInternalServerError found ;;
  match booking with
  | None => fail ErrBookingNotFound
  | Some booking =>
      if decide (ToUserID booking ≠ User_ID user) then fail ErrOnlyOwnerCanReturn else
      err <- svcUpdateStatus now bookingID BookingStatusReturned ;;
      match err with
      | Some _ => fail ErrInternalServerError
      | None => ret Nil
      end
  end.

(** HandleCreateBooking handles POST /bookings. *)
Definition HandleCreateBooking (now : Time) (r : Request) : Handler Payload :=
  if decide (UserID r = "") then fail ErrUnauthorized else
  found <- svcGetUserByEmail (UserID r) ;;
  fromUser <- orFail ErrUserNotFound found ;;
  req <- orFail ErrInvalidRequestBodyData (UnmarshalCreateBookingRequest (Data r)) ;;
  toolID <- orFail ErrInvalidRequestBodyData (ParseInt (cbr_ToolID req)) ;;
  found <- svcGetToolByID toolID ;;
  tool <- okOrFail ErrInternalServerError found ;;
  match tool with
  | None => fail ErrToolNotFound
  | Some tool =>
      found <- svcGetUserByID (Tool_UserID tool) ;;
      toUser <- orFail ErrUserNotFound found ;;
      let dbReq :=
        {| req_ToolID := FormatInt toolID;
           req_StartDate := time_Unix (cbr_StartDate req) 0;
           req_EndDate := time_Unix (cbr_EndDate req) 0;
           req_Contact := cbr_Contact req;
           req_Comments := cbr_Comments req |} in
      created <- svcCreate now dbReq (User_ID fromUser) (User_ID toUser) ;;
      match created with
      | Error err =>
          if decide (err = "booking dates conflict with existing booking")
          then fail ErrBookingDatesConflict
          else fail ErrInternalServerError
      | Ok booking => ret (OneBooking (convertBookingToResponse booking))
      end
  end.

(** HandleRateBooking handles POST /bookings/rates. *)
Definition HandleRateBooking (r : Request) : Handler Payload :=
  if decide (UserID r = "") then fail ErrUnauthorized else
  found <- svcGetUserByEmail (UserID r) ;;
  user <- orFail ErrUserNotFound found ;;
  rateReq <- orFail ErrInvalidRequestBodyData (UnmarshalRateRequest (Data r)) ;;
  bookingID <- orFail ErrInvalidRequestBodyData (ObjectIDFromHex (BookingID rateReq)) ;;
  found <- svcGet bookingID ;;
  booking <- okOrFail ErrInternalServerError found ;;
  match booking with
  | None => fail ErrBookingNotFound
  | Some booking =>
      if decide (FromUserID booking ≠ User_ID user ∧ ToUserID booking ≠ User_ID user)
      then fail ErrUserNotInvolved else
      if decide (Rating rateReq < 1 ∨ Rating rateReq > 5)
      then fail ErrInvalidRating else
      ret Nil
  end.

(** The transition operation of the design, by target status: the four
    routes the router registers for a change of status.  No route leads
    back to Pending. *)
Definition transitionHandler (target : BookingStatus)
  : option (Time → Request → Handler Payload) :=
  match target with
  | BookingStatusAccepted => Some HandleAcceptPetition
  | BookingStatusRejected => Some HandleDenyPetition
  | BookingStatusCancelled => Some HandleCancelRequest
  | BookingStatusReturned => Some HandleReturnBooking
  | BookingStatusPending => None
  end.

(** The route parameter that carries the reservation for each target. *)
Definition transitionParam (target : BookingStatus) : string :=
  match target with
  | BookingStatusReturned => "bookingId"
  | _ => "petitionId"
  end.

(** The request [r] comes from the known user [user] and names the stored
    reservation [b] under the route parameter [param]. *)
Definition addresses (d : DB) (r : Request) (param : string)
    (user : User) (id : ObjectID) (b : Booking) : Prop :=
  UserID r ≠ "" ∧
  GetUserByEmail d (UserID r) = Some user ∧
  ObjectIDFromHex (URLParam (Context r) param) = Some id ∧
  Get d id = Ok (Some b).

(** The final state [w] of a handler started on [d] holds the same
    database and its log holds no writing call. *)
Definition untouched (d : DB) (w : World) : Prop :=
  database w = d ∧ Forall (λ c, isWrite c = false) (calls w).

(** The handler came back with the error [e] and wrote nothing. *)
Definition rejects (e : APIError) (d : DB)
    (out : result APIError Payload * World) : Prop :=
  out.1 = Error e ∧ untouched d out.2.

(** What each transition handler does once the caller and the reservation
    have been looked up: the role test, then the state test, then the
    update. *)
Definition afterUpdate (now : Time) (id : ObjectID) (target : BookingStatus)
    (d : DB) (w : World) : result APIError Payload * World :=
  match UpdateStatus now id target d with
  | (Some _, d') =>
      (Error ErrInternalServerError,
       {| database := d'; calls := CallUpdateStatus id target :: calls w |})
  | (None, d') =>
      (Ok Nil, {| database := d'; calls := CallUpdateStatus id target :: calls w |})
  end.

Definition lookedUp (d : DB) (r : Request) (id : ObjectID) : World :=
  {| database := d; calls := [CallGet id; CallGetUserByEmail (UserID r)] |}.

End Handlers.

(** *** The standard-library calls, for concrete runs *)

Fixpoint parseDigits (s : string) (acc : Z) : option Z :=
  match s with
  | EmptyString => Some acc
  | String c rest =>
      let n := Z.of_N (N_of_ascii c) in
      if decide (48 ≤ n ≤ 57) then parseDigits rest (acc * 10 + (n - 48)) else None
  end.

(** [strconv.ParseInt(s, 10, 64)]: an optional sign, at least one decimal
    digit, and a value that fits 64 bits. *)
Definition strconv_ParseInt (s : string) : option Z :=
  let '(negative, digits) :=
    match s with
    | String "-" rest => (true, rest)
    | String "+" rest => (false, rest)
    | _ => (false, s)
    end in
  if decide (digits = "") then None else
  match parseDigits digits 0 with
  | Some n =>
      let v := if negative : bool then - n else n in
      if decide (- 2 ^ 63 ≤ v < 2 ^ 63) then Some v else None
  | None => None
  end.

(** [fmt.Sprintf("%d", n)]. *)
Definition Sprintf_d (n : Z) : string := NilZero.string_of_int (Z.to_int n).

(** A codec whose decoders answer with the given values: it stands for a
    request body that [json.Unmarshal] decodes to them. *)
Definition bodyCodec (create : option CreateBookingRequest)
    (rate : option RateRequest) : Codec :=
  {| UnmarshalCreateBookingRequest := λ _, create;
     UnmarshalRateRequest := λ _, rate;
     ParseInt := strconv_ParseInt;
     FormatInt := Sprintf_d |}.

(** *** The listing handlers *)

(** The zero [time.Time], 1 January of the year 1. *)
Definition zeroTime : Time := time_Unix (-62135596800) 0.

(** The zero [BookingResponse], what [make] fills a slice with. *)
Definition zeroBookingResponse : BookingResponse :=
  {| resp_ID := ""; resp_ToolID := ""; resp_FromUserID := ""; resp_ToUserID := "";
     resp_StartDate := 0; resp_EndDate := 0; resp_Contact := ""; resp_Comments := "";
     resp_BookingStatus := ""; resp_CreatedAt := zeroTime; resp_UpdatedAt := zeroTime |}.

(** [response := make([]BookingResponse, len(bookings))] and then
    [for i, booking := range bookings { response[i] =
    convertBookingToResponse(booking) }], the loop of the three listing
    handlers. *)
Definition bookingResponses (bookings : list Booking) : list BookingResponse :=
  foldl (λ response ib, <[ib.1 := convertBookingToResponse ib.2]> response)
        (replicate (length bookings) zeroBookingResponse)
        (zip (seq 0 (length bookings)) bookings).

Section ListHandlers.
Context {DB : Type} `{!Services DB} `{!ListServices DB}.

Notation "x <- c ;; k" := (bind c (λ x, k))
  (at level 100, c at next level, right associativity, only parsing).

(** The listing queries read the database; the log of calls, which has an
    entry for each call of [Services], has none for them. *)
Definition svcGetUserRequests (id : ObjectID) : Handler (result error (list Booking)) :=
  λ w, (Ok (GetUserRequests (database w) id), w).

Definition svcGetUserPetitions (id : ObjectID) : Handler (result error (list Booking)) :=
  λ w, (Ok (GetUserPetitions (database w) id), w).

Definition svcGetPendingRatings (id : ObjectID) : Handler (result error (list Booking)) :=
  λ w, (Ok (GetPendingRatings (database w) id), w).

(** HandleGetBookingRequests handles GET /bookings/requests. *)
Definition HandleGetBookingRequests (r : Request) : Handler (list BookingResponse) :=
  if decide (UserID r = "") then fail ErrUnauthorized else
  found <- svcGetUserByEmail (UserID r) ;;
  user <- orFail ErrUserNotFound found ;;
  found <- svcGetUserRequests (User_ID user) ;;
  bookings <- okOrFail ErrInternalServerError found ;;
  ret (bookingResponses bookings).

(** HandleGetBookingPetitions handles GET /bookings/petitions. *)
Definition HandleGetBookingPetitions (r : Request) : Handler (list BookingResponse) :=
  if decide (UserID r = "") then fail ErrUnauthorized else
  found <- svcGetUserByEmail (UserID r) ;;
  user <- orFail ErrUserNotFound found ;;
  found <- svcGetUserPetitions (User_ID user) ;;
  bookings <- okOrFail ErrInternalServerError found ;;
  ret (bookingResponses bookings).

(** HandleGetPendingRatings handles GET /bookings/rates. *)
Definition HandleGetPendingRatings (r : Request) : Handler (list BookingResponse) :=
  if decide (UserID r = "") then fail ErrUnauthorized else
  found <- svcGetUserByEmail (UserID r) ;;
  user <- orFail ErrUserNotFound found ;;
  found <- svcGetPendingRatings (User_ID user) ;;
  bookings <- okOrFail ErrInternalServerError found ;;
  ret (bookingResponses bookings).

End ListHandlers.

(** *** The handler registered inline for POST /bookings *)

(** The errors of the function that [router] registers for POST
    /bookings: the ones it makes with [fmt.Errorf], and the errors of
    [GetToolByID] and [Create], which it returns as they are.  The two
    that wrap the error of a user look-up ("invalid user ID: %w",
    "invalid tool owner ID: %w") are kept without their cause. *)
Inductive RouteError : Type :=
  | RouteUnauthorized
  | RouteInvalidRequestBody
  | RouteInvalidToolID
  | RouteToolLookup (err : error)
  | RouteToolNotFound
  | RouteInvalidUserID
  | RouteInvalidToolOwnerID
  | RouteCreate (err : error).

Section RouterRoutes.
Context {DB : Type} `{!Services DB} `{!Codec}.

(** The function literal passed to [r.Post("/bookings", ...)] in [router]. *)
Definition routerPostBookings (now : Time) (r : Request)
  : World → result RouteError Payload * World :=
  λ w,
  if decide (UserID r = "") then (Error RouteUnauthorized, w) else
  match UnmarshalCreateBookingRequest (Data r) with
  | None => (Error RouteInvalidRequestBody, w)
  | Some req =>
  match ParseInt (cbr_ToolID req) with
  | None => (Error RouteInvalidToolID, w)
  | Some toolID =>
  let w1 := logged (CallGetToolByID toolID) w in
  match GetToolByID (database w) toolID with
  | Error err => (Error (RouteToolLookup err), w1)
  | Ok None => (Error RouteToolNotFound, w1)
  | Ok (Some tool) =>
  let w2 := logged (CallGetUserByEmail (UserID r)) w1 in
  match GetUserByEmail (database w) (UserID r) with
  | None => (Error RouteInvalidUserID, w2)
  | Some fromUser =>
  let w3 := logged (CallGetUserByID (Tool_UserID tool)) w2 in
  match GetUserByID (database w) (Tool_UserID tool) with
  | None => (Error RouteInvalidToolOwnerID, w3)
  | Some toUser =>
  let toolIDStr := FormatInt (Tool_ID tool) in
  let dbReq :=
    {| req_ToolID := toolIDStr;
       req_StartDate := time_Unix (cbr_StartDate req) 0;
       req_EndDate := time_Unix (cbr_EndDate req) 0;
       req_Contact := cbr_Contact req;
       req_Comments := cbr_Comments req |} in
  match Create now dbReq (User_ID fromUser) (User_ID toUser) (database w) with
  | (Error err, d') =>
      (Error (RouteCreate err),
       {| database := d';
          calls := CallCreate dbReq (User_ID fromUser) (User_ID toUser) :: calls w3 |})
  | (Ok booking, d') =>
      (Ok (OneBooking (convertBookingToResponse booking)),
       {| database := d';
          calls := CallCreate dbReq (User_ID fromUser) (User_ID toUser) :: calls w3 |})
  end end end end end end.

End RouterRoutes.

(** *** api/handler.go: sending a reply *)

(** The [http.ResponseWriter] of a request, as the calls made on it, oldest
    first. *)
Inductive WriterCall : Type :=
  | CallHeaderSet (key value : string)
  | CallWriteHeader (statusCode : Z)
  | CallWrite (msg : list Byte.byte).

(** What a call of [Write] comes back with: no error, an error, or a panic
    (which [Send] recovers from). *)
Inductive WriteOutcome : Type :=
  | Wrote
  | WriteFailed (err : string)
  | WritePanicked.

(** The behaviour of the writer: the outcome of [Write(msg)] after the
    calls made so far. *)
Definition ResponseWriter : Type := list WriterCall → list Byte.byte → WriteOutcome.

(** The bytes handed to [Write], in order. *)
Definition written (w : list WriterCall) : list Byte.byte :=
  flat_map (λ c, match c with CallWrite msg => msg | _ => [] end) w.

Definition newline : list Byte.byte := [Byte.x0a].

(** [func (h *HTTPContext) Send(msg []byte, httpStatusCode int) error].
    [connectionClosed] is [h.Request.Context().Err() != nil].  The result
    is the error returned, [None] for nil; after a recovered panic the
    function returns the zero value of its result, nil. *)
Definition Send (writer : ResponseWriter) (connectionClosed : bool)
    (msg : list Byte.byte) (httpStatusCode : Z) (w : list WriterCall)
  : option string * list WriterCall :=
  if decide (httpStatusCode < 100 ∨ httpStatusCode >= 600)
  then (Some ("http status code " ++ Sprintf_d httpStatusCode ++ " not supported"), w)
  else if connectionClosed then (Some "connection is closed", w)
  else
    let w1 := (w ++ [CallHeaderSet "Content-Length"
                       (Sprintf_d (Z.of_nat (length msg) + 1));
                     CallHeaderSet "Content-Type" "application/json";
                     CallWriteHeader httpStatusCode])%list in
    let finish (w2 : list WriterCall) :=
      match writer w2 newline with
      | Wrote => (None, (w2 ++ [CallWrite newline])%list)
      | WriteFailed err => (Some err, (w2 ++ [CallWrite newline])%list)
      | WritePanicked => (None, (w2 ++ [CallWrite newline])%list)
      end in
    if decide (0 < length msg)%nat then
      match writer w1 msg with
      | Wrote => finish (w1 ++ [CallWrite msg])%list
      | WriteFailed err => (Some err, (w1 ++ [CallWrite msg])%list)
      | WritePanicked => (None, (w1 ++ [CallWrite msg])%list)
      end
    else finish w1.

(** *** api/handler.go: the wrapper around every handler *)

(** [req.Body]: what [io.ReadAll] and then [Close] come back with. *)
Record BodyReader : Type := mkBodyReader {
  ReadAll : result string (list Byte.byte);
  Close : option string
}.

(** The [*http.Request], as far as [routerHandler] reads it. *)
Record HttpRequest : Type := mkHttpRequest {
  http_Body : option BodyReader;
  http_URLPath : string;
  http_HeaderGet : string → string;
  http_RouteParams : gmap string string
}.

Record ResponseHeader : Type := mkResponseHeader {
  Success : bool;
  Message : string;
  ErrorCode : Z
}.

(** [Response]; [Response_Data] is [None] while the field is unset. *)
Record Response (D : Type) : Type := mkResponse {
  Response_Header : ResponseHeader;
  Response_Data : option D
}.
Arguments mkResponse {D} _ _.
Arguments Response_Header {D} _.
Arguments Response_Data {D} _.

(** An [error] as [routerHandler] looks at it: its [Error()] text and, when
    its dynamic type is [*HTTPError], the [Code] of it. *)
Record GoError : Type := mkGoError {
  errText : string;
  httpErrorCode : option Z
}.

(** [strings.Split(s, "/")]. *)
Fixpoint splitSlash (s : string) : list string :=
  match s with
  | EmptyString => [""]
  | String c rest =>
      if decide (c = "/"%char) then "" :: splitSlash rest
      else match splitSlash rest with
           | first :: others => String c first :: others
           | [] => [String c ""]
           end
  end.

Definition doubleQuote : string := String (ascii_of_nat 34) "".

(** The body written when the error reply itself cannot be marshalled. *)
Definition internalServerErrorBody : list Byte.byte :=
  list_byte_of_string
    ("{" ++ doubleQuote ++ "header" ++ doubleQuote ++ ":{"
     ++ doubleQuote ++ "success" ++ doubleQuote ++ ":false,"
     ++ doubleQuote ++ "message" ++ doubleQuote ++ ":"
     ++ doubleQuote ++ "internal server error" ++ doubleQuote ++ "}}").

(** [w.Header().Set("Content-Type", "application/json")], [w.WriteHeader]
    and [w.Write], the three calls every branch of [routerHandler] ends
    with; an error of [Write] is only logged. *)
Definition reply (statusCode : Z) (msg : list Byte.byte) (w : list WriterCall)
  : list WriterCall :=
  (w ++ [CallHeaderSet "Content-Type" "application/json";
         CallWriteHeader statusCode; CallWrite msg])%list.

(** The [Request] that [routerHandler] hands to the handler function: the
    body it read, the route parameters, the URL path split at its slashes
    without the first piece, and as [UserID] the X-User-ID header. *)
Definition handedRequest (req : HttpRequest) (body : list Byte.byte) : Request :=
  {| Data := body;
     Context := {| RouteParams := http_RouteParams req |};
     Path := tail (splitSlash (http_URLPath req));
     UserID := http_HeaderGet req "X-User-ID" |}.

Section RouterHandler.
Context {S D : Type}.
(** [json.Marshal] of a [Response]. *)
Variable Marshal : Response D → result string (list Byte.byte).

Definition failureResponse (message : string) : Response D :=
  {| Response_Header := {| Success := false; Message := message; ErrorCode := 0 |};
     Response_Data := None |}.

(** [msg, _ := json.Marshal(resp)]. *)
Definition marshalOrNil (resp : Response D) : list Byte.byte :=
  match Marshal resp with Ok msg => msg | Error _ => [] end.

(** [routerHandler]: [s] is the state the handler function works on, [w]
    the response writer. *)
Definition routerHandler (handlerFunc : Request → S → result GoError D * S)
    (req : HttpRequest) (s : S) (w : list WriterCall) : S * list WriterCall :=
  let serve (body : list Byte.byte) :=
    let '(res, s') := handlerFunc (handedRequest req body) s in
    match res with
    | Error err =>
        match Marshal (failureResponse (errText err)) with
        | Error _ => (s', reply 500 internalServerErrorBody w)
        | Ok msg => (s', reply (default 400 (httpErrorCode err)) msg w)
        end
    | Ok handlerResp =>
        match Marshal {| Response_Header :=
                           {| Success := true; Message := ""; ErrorCode := 0 |};
                         Response_Data := Some handlerResp |} with
        | Error err => (s', reply 500 (marshalOrNil (failureResponse err)) w)
        | Ok data => (s', reply 200 data w)
        end
    end in
  match http_Body req with
  | None => serve []
  | Some reader =>
      match ReadAll reader with
      | Error err => (s, reply 400 (marshalOrNil (failureResponse err)) w)
      | Ok body =>
          match Close reader with
          | Some err => (s, reply 500 (marshalOrNil (failureResponse err)) w)
          | None => serve body
          end
      end
  end.

End RouterHandler.

(** The booking handlers behind [routerHandler].  Their error values are
    Go errors; [describe] gives the text of each and, for an [*HTTPError],
    its code (they are declared in a file that is not among the
    sources). *)
Definition asHandlerFunc {DB A : Type} (describe : APIError → GoError)
    (h : Request → @Handler DB A)
  : Request → @World DB → result GoError A * @World DB :=
  λ r w, match h r w with
         | (Ok a, w') => (Ok a, w')
         | (Error e, w') => (Error (describe e), w')
         end.

(** *** api/user.go: registration and login over the document store

    This file of the package works on the database directly
    ([a.database.Exec], [a.database.QueryDocument]) and declares its own
    error values, so it has a module of its own. *)
Module users.

Definition ErrInvalidRegisterAuthToken : string := "invalid register auth token".
Definition ErrInvalidRequestBodyData : string := "invalid request body data".
Definition ErrCouldNotInsertToDatabase : string := "could not insert to database".
Definition ErrWrongLogin : string := "wrong password or email".

Record Location : Type := mkLocation {
  Latitude : Z;
  Longitude : Z
}.

Record UserProfile : Type := mkUserProfile {
  profile_Name : string;
  profile_Community : string;
  profile_Location : option Location;
  profile_Active : option bool;
  profile_Avatar : list Byte.byte;
  profile_Password : string
}.

Record Register : Type := mkRegister {
  UserEmail : string;
  RegisterAuthToken : string;
  Register_UserProfile : UserProfile
}.

Record Login : Type := mkLogin {
  Login_Email : string;
  Login_Password : string
}.

Record LoginResponse : Type := mkLoginResponse {
  Token : string;
  Expirity : Time
}.

(** The [db.User] that [register] builds and [login] scans: the fields the
    two functions name. *)
Record UserRow : Type := mkUserRow {
  row_Email : string;
  row_Password : list Byte.byte;
  row_Name : string;
  row_Avatar : list Byte.byte;
  row_Location : option Location;
  row_Active : bool;
  row_Rating : Z;
  row_Tokens : Z
}.

(** What user.go calls and does not define: the statements it runs on the
    store [G], [document.StructScan], [json.Unmarshal] into its two request
    types, [hashPassword] and [a.makeToken]. *)
Class Backend (G Document : Type) : Type := {
  ExecInsertUser : UserRow → G → option string * G;
  QueryUserByEmail : G → string → result string Document;
  StructScan : Document → result string UserRow;
  UnmarshalRegister : list Byte.byte → option Register;
  UnmarshalLogin : list Byte.byte → option Login;
  hashPassword : string → list Byte.byte;
  makeToken : string → result string LoginResponse
}.

(** [bytes.Equal] decides the equality of two byte slices. *)
#[export] Instance byte_eq_decision : EqDecision Byte.byte := Stdlib.Strings.Byte.byte_eq_dec.

Section UserHandlers.
Context {G Document : Type} `{!Backend G Document}.

(** [func (a *API) register(r *Request)]; [registerAuthToken] is the field
    of [a]. *)
Definition register (registerAuthToken : string) (r : Request) (g : G)
  : result string unit * G :=
  match UnmarshalRegister (Data r) with
  | None => (Error ErrInvalidRequestBodyData, g)
  | Some userInfo =>
      if decide (RegisterAuthToken userInfo ≠ registerAuthToken)
      then (Error ErrInvalidRegisterAuthToken, g)
      else
        let profile := Register_UserProfile userInfo in
        let user :=
          {| row_Email := UserEmail userInfo;
             row_Password := hashPassword (profile_Password profile);
             row_Name := profile_Name profile;
             row_Avatar := profile_Avatar profile;
             row_Location := profile_Location profile;
             row_Active := true;
             row_Rating := 50;
             row_Tokens := 1000 |} in
        match ExecInsertUser user g with
        | (Some err, g') => (Error (ErrCouldNotInsertToDatabase ++ ": " ++ err), g')
        | (None, g') => (Ok tt, g')
        end
  end.

(** [func (a *API) login(r *Request)].  When the password does not match,
    the function wraps the [err] of the query, which is nil there:
    [fmt.Errorf("failed to scan user: %w", nil)]. *)
Definition login (r : Request) (g : G) : result string LoginResponse :=
  match UnmarshalLogin (Data r) with
  | None => Error ErrInvalidRequestBodyData
  | Some loginInfo =>
      match QueryUserByEmail g (Login_Email loginInfo) with
      | Error _ => Error ErrWrongLogin
      | Ok doc =>
          match StructScan doc with
          | Error err => Error ("failed to scan user: " ++ err)
          | Ok user =>
              if decide (row_Password user ≠ hashPassword (Login_Password loginInfo))
              then Error "failed to scan user: %!w(<nil>)"
              else
                match makeToken (row_Email user) with
                | Error err => Error ("failed to generate token: " ++ err)
                | Ok token => Ok token
                end
          end
      end
  end.

(** [func (a *API) userProfile(r *Request)]. *)
Definition userProfile (r : Request) (g : G) : result string UserRow :=
  match QueryUserByEmail g (UserID r) with
  | Error err => Error ("failed to query user profile: " ++ err)
  | Ok stream =>
      match StructScan stream with
      | Error err => Error ("failed to scan user profile: " ++ err)
      | Ok user => Ok user
      end
  end.

End UserHandlers.
End users.

End api.

Import db api.

(** * A small database for concrete runs

    Bob owns tool 1; Alice asked for it twice for the same two days.  The
    first request is Accepted, the second still Pending. *)

Definition bob : User := mkUser 1 "bob@emprius.cat" "bob".
Definition alice : User := mkUser 2 "alice@emprius.cat" "alice".
Definition carol : User := mkUser 3 "carol@emprius.cat" "carol".

Definition day : Z := 86400 * nanosPerSecond.

Definition booking1 : Booking :=
  {| ID := 16; ToolID := "1"; FromUserID := 2; ToUserID := 1;
     StartDate := day; EndDate := 2 * day;
     Contact := "test1@test.com"; Comments := "Test booking 1";
     Status := BookingStatusAccepted; CreatedAt := 5; UpdatedAt := 7 |}.

Definition booking2 : Booking :=
  {| ID := 17; ToolID := "1"; FromUserID := 2; ToUserID := 1;
     StartDate := day; EndDate := 2 * day;
     Contact := "test2@test.com"; Comments := "Test booking 2";
     Status := BookingStatusPending; CreatedAt := 6; UpdatedAt := 6 |}.

Definition exampleDB : MemDB :=
  {| users := [bob; alice; carol];
     tools := [mkTool 1 1];
     bookings := <[16%N := booking1]> (<[17%N := booking2]> ∅) |}.

Definition hex16 : string := "000000000000000000000010".
Definition hex17 : string := "000000000000000000000011".

(** A request on a [/bookings/petitions/{petitionId}/...] or
    [/bookings/request/{petitionId}/cancel] route. *)
Definition petitionRequest (caller petition : string) : Request :=
  {| Data := []; Path := ["bookings"; "petitions"; petition; "accept"];
     Context := {| RouteParams := {["petitionId" := petition]} |};
     UserID := caller |}.

(** A request on a [/bookings/{bookingId}...] route. *)
Definition bookingRequest (caller booking : string) : Request :=
  {| Data := []; Path := ["bookings"; booking; "return"];
     Context := {| RouteParams := {["bookingId" := booking]} |};
     UserID := caller |}.

(** A request on [/bookings/rates]; its body is what the codec decodes. *)
Definition rateRequest (caller : string) : Request :=
  {| Data := []; Path := ["bookings"; "rates"];
     Context := {| RouteParams := ∅ |};
     UserID := caller |}.

(** ** Stand-ins for concrete runs of the other handlers *)

(** A listing service that answers every query with the given bookings. *)
Definition listedBookings (l : list Booking) : ListServices MemDB :=
  {| GetUserRequests := λ _ _, Ok l;
     GetUserPetitions := λ _ _, Ok l;
     GetPendingRatings := λ _ _, Ok l |}.

(** A writer on which every write succeeds. *)
Definition alwaysWrites : ResponseWriter := λ _ _, Wrote.

(** A stand-in for [json.Marshal]: it renders a response as the message
    of its header. *)
Definition messageMarshal (resp : Response Payload) : result string (list Byte.byte) :=
  Ok (list_byte_of_string (Message (Response_Header resp))).

(** A stand-in for the declarations of the error values: the unauthorized
    error as an [*HTTPError] with code 401, the others as plain errors. *)
Definition exampleDescribe (e : APIError) : GoError :=
  match e with
  | ErrUnauthorized => {| errText := "unauthorized"; httpErrorCode := Some 401 |}
  | _ => {| errText := "error"; httpErrorCode := None |}
  end.

(** A POST to the accept route of booking 17, without a body. *)
Definition acceptHttpRequest (userID : string) : HttpRequest :=
  {| http_Body := None;
     http_URLPath := "/bookings/petitions/000000000000000000000011/accept";
     http_HeaderGet := λ key, if decide (key = "X-User-ID") then userID else "";
     http_RouteParams := {["petitionId" := hex17]} |}.

(** A request on POST /bookings; its body is what the codec decodes. *)
Definition createRequest (caller : string) : Request :=
  {| Data := []; Path := ["bookings"];
     Context := {| RouteParams := ∅ |};
     UserID := caller |}.

(** A body asking for tool 1 from the start of day [first] for one day. *)
Definition createBody (first : Z) : CreateBookingRequest :=
  {| cbr_ToolID := "1"; cbr_StartDate := first * 86400;
     cbr_EndDate := (first + 1) * 86400;
     cbr_Contact := "test3@test.com"; cbr_Comments := "Test booking 3" |}.

(** A user store kept as the list of its rows, with stand-ins for the
    decoders, the password hash and the token maker. *)
Definition listBackend (registerBody : option users.Register)
    (loginBody : option users.Login) : users.Backend (list users.UserRow) users.UserRow :=
  {| users.ExecInsertUser := λ user g, (None, (g ++ [user])%list);
     users.QueryUserByEmail := λ g email,
       match head (filter (λ user, users.row_Email user = email) g) with
       | Some user => Ok user
       | None => Error "document not found"
       end;
     users.StructScan := λ doc, Ok doc;
     users.UnmarshalRegister := λ _, registerBody;
     users.UnmarshalLogin := λ _, loginBody;
     users.hashPassword := list_byte_of_string;
     users.makeToken := λ email, Ok {| users.Token := email; users.Expirity := 0 |} |}.

Definition dave : users.UserRow :=
  {| users.row_Email := "dave@emprius.cat";
     users.row_Password := list_byte_of_string "secret";
     users.row_Name := "dave"; users.row_Avatar := [];
     users.row_Location := None; users.row_Active := true;
     users.row_Rating := 50; users.row_Tokens := 1000 |}.

(** * Properties of the handlers, for every implementation of the services *)

Ltac handler_unfold :=
  unfold run, HandleGetBooking, HandleAcceptPetition, HandleDenyPetition,
    HandleCancelRequest, HandleReturnBooking, HandleCreateBooking,
    HandleRateBooking, bind, orFail, okOrFail, svcGetUserByEmail,
    svcGetUserByID, svcGetToolByID, svcGet, svcUpdateStatus, svcCreate,
    logged, ret, fail in *.

Ltac handler_cases :=
  repeat (simpl in *; simplify_eq;
          first [ case_decide | case_match ]);
  simpl in *; simplify_eq.

Section HandlerProperties.
Context {DB : Type} `{!Services DB} `{!Codec}.
Implicit Types (d : DB) (r : Request) (now : Time) (b : Booking) (user : User).

Ltac after_lookup :=
  intros (Hu & Hg & Hid & Hb); handler_unfold; simpl;
  rewrite decide_False by assumption; simpl; rewrite Hg; simpl;
  rewrite Hid; simpl; rewrite Hb; simpl;
  unfold afterUpdate, lookedUp; simpl;
  repeat case_decide; try reflexivity;
  destruct (UpdateStatus _ _ _ _) as [[err|] d']; reflexivity.

Lemma accept_after_lookup now r d user id b :
  addresses d r "petitionId" user id b →
  run (HandleAcceptPetition now r) d =
    if decide (ToUserID b ≠ User_ID user)
    then (Error ErrOnlyOwnerCanAccept, lookedUp d r id)
    else if decide (Status b ≠ BookingStatusPending)
         then (Error ErrCanOnlyAcceptPending, lookedUp d r id)
         else afterUpdate now id BookingStatusAccepted d (lookedUp d r id).
Proof. after_lookup. Qed.

Lemma deny_after_lookup now r d user id b :
  addresses d r "petitionId" user id b →
  run (HandleDenyPetition now r) d =
    if decide (ToUserID b ≠ User_ID user)
    then (Error ErrOnlyOwnerCanDeny, lookedUp d r id)
    else if decide (Status b ≠ BookingStatusPending)
         then (Error ErrCanOnlyDenyPending, lookedUp d r id)
         else afterUpdate now id BookingStatusRejected d (lookedUp d r id).
Proof. after_lookup. Qed.

Lemma cancel_after_lookup now r d user id b :
  addresses d r "petitionId" user id b →
  run (HandleCancelRequest now r) d =
    if decide (FromUserID b ≠ User_ID user)
    then (Error ErrOnlyRequesterCanCancel, lookedUp d r id)
    else if decide (Status b ≠ BookingStatusPending)
         then (Error ErrCanOnlyCancelPending, lookedUp d r id)
         else afterUpdate now id BookingStatusCancelled d (lookedUp d r id).
Proof. after_lookup. Qed.

Lemma return_after_lookup now r d user id b :
  addresses d r "bookingId" user id b →
  run (HandleReturnBooking now r) d =
    if decide (ToUserID b ≠ User_ID user)
    then (Error ErrOnlyOwnerCanReturn, lookedUp d r id)
    else afterUpdate now id BookingStatusReturned d (lookedUp d r id).
Proof. after_lookup. Qed.

Lemma lookedUp_untouched d r id : untouched d (lookedUp d r id).
Proof. split; [reflexivity | repeat constructor]. Qed.

Lemma rejects_lookedUp e d r id : rejects e d (Error e, lookedUp d r id).
Proof. split; [reflexivity | apply lookedUp_untouched]. Qed.

Ltac by_guard lem Haddr :=
  rewrite (lem _ _ _ _ _ _ Haddr);
  repeat first
    [ rewrite decide_True by (assumption || congruence)
    | rewrite decide_False by (intros ?; congruence || contradiction) ];
  try apply rejects_lookedUp.

(** A transition handler that succeeds has found the caller and the
    reservation, the caller is the party the route is for, and the update
    came back without an error. *)
Lemma transition_success_inv target h now r d p w :
  transitionHandler target = Some h →
  run (h now r) d = (Ok p, w) →
  ∃ user id b,
    addresses d r (transitionParam target) user id b ∧
    match target with
    | BookingStatusCancelled => FromUserID b
    | _ => ToUserID b
    end = User_ID user ∧
    UpdateStatus now id target d = (None, database w) ∧
    p = Nil.
Proof.
  intros Hh Hrun.
  destruct target; simpl in Hh; simplify_eq; handler_unfold;
    handler_cases; eexists _, _, _; (split; [repeat split; eassumption |]);
    (split; [eassumption |]); split; reflexivity || eassumption.
Qed.

(** ** Reading one booking *)

(** The whole of HandleGetBooking: its outcome is a function of the route
    parameter and of the stored booking. *)
Lemma get_booking_outcome d r :
  run (HandleGetBooking r) d =
    match ObjectIDFromHex (URLParam (Context r) "bookingId") with
    | None => (Error ErrInvalidRequestBodyData, {| database := d; calls := [] |})
    | Some bookingID =>
        (match Get d bookingID with
         | Error _ => Error ErrInternalServerError
         | Ok None => Error ErrBookingNotFound
         | Ok (Some booking) => Ok (OneBooking (convertBookingToResponse booking))
         end,
         {| database := d; calls := [CallGet bookingID] |})
    end.
Proof.
  handler_unfold. simpl.
  destruct (ObjectIDFromHex _) as [bookingID|]; simpl; [| reflexivity].
  destruct (Get d bookingID) as [[booking|]|err]; reflexivity.
Qed.

(** C10.  HandleGetBooking never looks at the caller: on any database, two
    requests that agree on everything but [UserID] (the empty,
    unauthenticated one included) come back with the same result, the
    same final database and the same service calls. *)
Theorem get_booking_ignores_caller d r1 r2 :
  Data r1 = Data r2 →
  Path r1 = Path r2 →
  Context r1 = Context r2 →
  run (HandleGetBooking r1) d = run (HandleGetBooking r2) d.
Proof.
  intros _ _ Hctx. rewrite !get_booking_outcome, Hctx. reflexivity.
Qed.

(** ** Guards of the transitions *)

(** C4.  On a reservation whose status is not Pending, accept and deny
    asked by its owner and cancel asked by its requester come back with
    the can-only-...-pending error, a StateError, and the database is the
    one before the call (so the status is unchanged); whoever the caller
    is, each of the three fails with a RoleError or a StateError and
    writes nothing. *)
Theorem non_pending_transition_is_state_error now r d user id b :
  addresses d r "petitionId" user id b →
  Status b ≠ BookingStatusPending →
  (ToUserID b = User_ID user →
     rejects ErrCanOnlyAcceptPending d (run (HandleAcceptPetition now r) d) ∧
     rejects ErrCanOnlyDenyPending d (run (HandleDenyPetition now r) d)) ∧
  (FromUserID b = User_ID user →
     rejects ErrCanOnlyCancelPending d (run (HandleCancelRequest now r) d)) ∧
  (∀ h, h ∈ [HandleAcceptPetition; HandleDenyPetition; HandleCancelRequest] →
     ∃ e, rejects e d (run (h now r) d) ∧
          (error_kind e = RoleError ∨ error_kind e = StateError)) ∧
  Forall (λ e, error_kind e = StateError)
    [ErrCanOnlyAcceptPending; ErrCanOnlyDenyPending; ErrCanOnlyCancelPending].
Proof.
  intros Haddr Hst. split; [| split; [| split]].
  - intros Hown. split.
    + by_guard accept_after_lookup Haddr.
    + by_guard deny_after_lookup Haddr.
  - intros Hreq. by_guard cancel_after_lookup Haddr.
  - intros h Hh. rewrite !elem_of_cons in Hh.
    destruct Hh as [-> | [-> | [-> | Hh]]]; [| | | inversion Hh].
    + destruct (decide (ToUserID b = User_ID user)).
      * exists ErrCanOnlyAcceptPending. split; [| by right].
        by_guard accept_after_lookup Haddr.
      * exists ErrOnlyOwnerCanAccept. split; [| by left].
        by_guard accept_after_lookup Haddr.
    + destruct (decide (ToUserID b = User_ID user)).
      * exists ErrCanOnlyDenyPending. split; [| by right].
        by_guard deny_after_lookup Haddr.
      * exists ErrOnlyOwnerCanDeny. split; [| by left].
        by_guard deny_after_lookup Haddr.
    + destruct (decide (FromUserID b = User_ID user)).
      * exists ErrCanOnlyCancelPending. split; [| by right].
        by_guard cancel_after_lookup Haddr.
      * exists ErrOnlyRequesterCanCancel. split; [| by left].
        by_guard cancel_after_lookup Haddr.
  - repeat constructor.
Qed.

(** C5.  Whatever the status of the reservation, accept, deny and
    mark-returned asked by a user who is not its owner ([ToUserID]) come
    back with the only-owner-can-... error, and cancel asked by a user who
    is not its requester ([FromUserID]) comes back with the
    only-requester-can-cancel error; these are RoleErrors, and nothing is
    written.  [rp] is a request on a petition route, [rb] one on the
    return route. *)
Theorem wrong_actor_is_role_error now rp rb d user id b :
  addresses d rp "petitionId" user id b →
  addresses d rb "bookingId" user id b →
  (ToUserID b ≠ User_ID user →
     rejects ErrOnlyOwnerCanAccept d (run (HandleAcceptPetition now rp) d) ∧
     rejects ErrOnlyOwnerCanDeny d (run (HandleDenyPetition now rp) d) ∧
     rejects ErrOnlyOwnerCanReturn d (run (HandleReturnBooking now rb) d)) ∧
  (FromUserID b ≠ User_ID user →
     rejects ErrOnlyRequesterCanCancel d (run (HandleCancelRequest now rp) d)) ∧
  Forall (λ e, error_kind e = RoleError)
    [ErrOnlyOwnerCanAccept; ErrOnlyOwnerCanDeny; ErrOnlyOwnerCanReturn;
     ErrOnlyRequesterCanCancel].
Proof.
  intros Hp Hb. split; [| split].
  - intros Hne. split; [| split].
    + by_guard accept_after_lookup Hp.
    + by_guard deny_after_lookup Hp.
    + by_guard return_after_lookup Hb.
  - intros Hne. by_guard cancel_after_lookup Hp.
  - repeat constructor.
Qed.


(** ** Creation *)

(** HandleCreateBooking, once the caller, the body, the tool and its owner
    have been found: the dates-conflict error of [Create], recognised by
    its text, becomes ErrBookingDatesConflict, any other error the
    internal server error, and a created booking is returned. *)
Lemma create_after_lookup now r d fromUser req toolID tool toUser :
  UserID r ≠ "" →
  GetUserByEmail d (UserID r) = Some fromUser →
  UnmarshalCreateBookingRequest (Data r) = Some req →
  ParseInt (cbr_ToolID req) = Some toolID →
  GetToolByID d toolID = Ok (Some tool) →
  GetUserByID d (Tool_UserID tool) = Some toUser →
  let dbReq :=
    {| req_ToolID := FormatInt toolID;
       req_StartDate := time_Unix (cbr_StartDate req) 0;
       req_EndDate := time_Unix (cbr_EndDate req) 0;
       req_Contact := cbr_Contact req;
       req_Comments := cbr_Comments req |} in
  let created := Create now dbReq (User_ID fromUser) (User_ID toUser) d in
  (run (HandleCreateBooking now r) d).1 =
    match created.1 with
    | Ok booking => Ok (OneBooking (convertBookingToResponse booking))
    | Error err =>
        if decide (err = db.ErrBookingDatesConflict)
        then Error ErrBookingDatesConflict
        else Error ErrInternalServerError
    end ∧
  database (run (HandleCreateBooking now r) d).2 = created.2.
Proof.
  intros Hu Hfrom Hreq Hid Htool Hto dbReq created. subst created dbReq.
  handler_unfold. simpl.
  rewrite decide_False by assumption. simpl. rewrite Hfrom. simpl.
  rewrite Hreq. simpl. rewrite Hid. simpl. rewrite Htool. simpl.
  rewrite Hto. simpl.
  destruct (Create _ _ _ _ _) as [[booking|err] d']; simpl; [done |].
  unfold db.ErrBookingDatesConflict. case_decide; done.
Qed.

(** ** Errors leave the store alone *)

Lemma untouched_intro d (w : World) :
  database w = d → Forall (λ c, isWrite c = false) (calls w) → untouched d w.
Proof. by split. Qed.

(** C9.  For each of the four transition handlers: when it comes back
    with an error other than the internal server error (that is:
    unauthorized, user not found, malformed identifier, booking not found,
    a role mismatch or a state mismatch), [UpdateStatus] was not called
    and the database is the one before the call. *)
Theorem transition_error_leaves_store target h now r d e w :
  transitionHandler target = Some h →
  run (h now r) d = (Error e, w) →
  e ≠ ErrInternalServerError →
  untouched d w ∧
  (∀ id s, CallUpdateStatus id s ∉ calls w) ∧
  e ∈ [ErrUnauthorized; ErrUserNotFound; ErrInvalidRequestBodyData;
       ErrBookingNotFound; ErrOnlyOwnerCanAccept; ErrOnlyOwnerCanDeny;
       ErrOnlyRequesterCanCancel; ErrOnlyOwnerCanReturn;
       ErrCanOnlyAcceptPending; ErrCanOnlyDenyPending; ErrCanOnlyCancelPending].
Proof.
  intros Hh Hrun Hne.
  destruct target; simpl in Hh; simplify_eq; handler_unfold; handler_cases;
    (split; [apply untouched_intro; simpl; [reflexivity | repeat constructor] |]);
    (split; [intros ? ?; simpl; rewrite ?elem_of_cons, elem_of_nil; intuition discriminate |]);
    rewrite !elem_of_cons; tauto.
Qed.

(** ** Rating *)

Lemma rate_writes_nothing r d res w :
  run (HandleRateBooking r) d = (res, w) → untouched d w.
Proof.
  intros Hrun. handler_unfold. handler_cases;
    (apply untouched_intro; simpl; [reflexivity | repeat constructor]).
Qed.

(** C8.  HandleRateBooking validates and stores nothing.  For a request of
    a known user whose body decodes and names a stored booking: a caller
    who is neither its requester nor its owner gets the user-not-involved
    error; an involved caller with a rating below 1 or above 5 gets the
    invalid-rating error; otherwise the handler returns nil.  On every
    request, whatever the outcome, the database is the one before the call
    and no writing service was called. *)
Theorem rate_booking_validates_only r d user rateReq id b :
  UserID r ≠ "" →
  GetUserByEmail d (UserID r) = Some user →
  UnmarshalRateRequest (Data r) = Some rateReq →
  ObjectIDFromHex (BookingID rateReq) = Some id →
  Get d id = Ok (Some b) →
  let involved := FromUserID b = User_ID user ∨ ToUserID b = User_ID user in
  let out := run (HandleRateBooking r) d in
  (¬ involved → out.1 = Error ErrUserNotInvolved) ∧
  (involved → Rating rateReq < 1 ∨ Rating rateReq > 5 →
     out.1 = Error ErrInvalidRating) ∧
  (involved → 1 ≤ Rating rateReq ≤ 5 → out.1 = Ok Nil) ∧
  untouched d out.2 ∧
  (∀ r' d', untouched d' (run (HandleRateBooking r') d').2).
Proof.
  intros Hu Hg Hdec Hid Hb involved out.
  assert (Hout : out =
    (if decide (FromUserID b ≠ User_ID user ∧ ToUserID b ≠ User_ID user)
     then Error ErrUserNotInvolved
     else if decide (Rating rateReq < 1 ∨ Rating rateReq > 5)
          then Error ErrInvalidRating else Ok Nil,
     {| database := d; calls := [CallGet id; CallGetUserByEmail (UserID r)] |})).
  { subst out. handler_unfold. simpl.
    rewrite decide_False by assumption. simpl. rewrite Hg. simpl.
    rewrite Hdec. simpl. rewrite Hid. simpl. rewrite Hb. simpl.
    repeat case_decide; reflexivity. }
  rewrite Hout. subst involved. simpl.
  split; [| split; [| split; [| split; [split |]]]].
  - intros Hni. rewrite decide_True; [reflexivity |].
    split; intros Heq; apply Hni; [by left | by right].
  - intros Hin Hr. rewrite decide_False by (intros [? ?]; tauto).
    by rewrite decide_True.
  - intros Hin Hr. rewrite decide_False by (intros [? ?]; tauto).
    rewrite decide_False by lia. reflexivity.
  - reflexivity.
  - repeat constructor.
  - intros r' d'. destruct (run (HandleRateBooking r') d') as [res w] eqn:Hrun.
    exact (rate_writes_nothing _ _ _ _ Hrun).
Qed.

End HandlerProperties.

(** * Properties of the in-memory database *)

Section MemoryDatabase.
Implicit Types (d : MemDB) (m : gmap ObjectID Booking) (b : Booking).

Lemma hasConflict_spec m tool candidateStart candidateEnd :
  hasConflict m tool candidateStart candidateEnd = true ↔
  ∃ id b, m !! id = Some b ∧ ToolID b = tool ∧
          Status b = BookingStatusAccepted ∧
          StartDate b < candidateEnd ∧ EndDate b > candidateStart.
Proof.
  unfold hasConflict, acceptedForTool, overlaps. rewrite existsb_exists. split.
  - intros (b & Hin & Hov). apply list_elem_of_In in Hin.
    apply list_elem_of_filter in Hin as ((Htool & Hst) & Hin).
    apply list_elem_of_fmap in Hin as ([id b'] & -> & Hin).
    apply elem_of_map_to_list in Hin. apply bool_decide_eq_true in Hov.
    exists id, b'. simpl in *. tauto.
  - intros (id & b & Hm & Htool & Hst & Hlt & Hgt). exists b. split.
    + apply list_elem_of_In, list_elem_of_filter. split; [done |].
      apply list_elem_of_fmap. exists (id, b). split; [done |].
      by apply elem_of_map_to_list.
    + apply bool_decide_eq_true. done.
Qed.

Lemma newObjectID_fresh m : m !! newObjectID m = None.
Proof. apply not_elem_of_dom. unfold newObjectID. apply is_fresh. Qed.

(** ** The conflict detector and creation *)

(** C3.  The overlap test is the half-open one: an Accepted reservation
    conflicts with a candidate range on its tool exactly when
    [existing.start < candidateEnd] and [existing.end > candidateStart];
    a reservation that ends at the instant T where the candidate starts,
    or starts at the instant where the candidate ends, is no conflict. *)
Theorem overlap_is_half_open (existing : Booking) (candidateStart candidateEnd : Time) :
  Status existing = BookingStatusAccepted →
  let stored : gmap ObjectID Booking := {[ID existing := existing]} in
  let conflict := hasConflict stored (ToolID existing) candidateStart candidateEnd in
  (conflict = true ↔
     StartDate existing < candidateEnd ∧ EndDate existing > candidateStart) ∧
  (EndDate existing = candidateStart → conflict = false) ∧
  (StartDate existing = candidateEnd → conflict = false).
Proof.
  intros Hacc stored conflict.
  assert (Hiff : conflict = true ↔
     StartDate existing < candidateEnd ∧ EndDate existing > candidateStart).
  { subst conflict stored. rewrite hasConflict_spec. split.
    - intros (id & b & Hm & _ & _ & Hlt & Hgt).
      apply lookup_singleton_Some in Hm as [_ <-]. done.
    - intros [Hlt Hgt]. exists (ID existing), existing.
      rewrite lookup_singleton_eq. done. }
  split; [exact Hiff |].
  split; intros Htouch; destruct conflict; try reflexivity;
    destruct Hiff as [Hiff _]; specialize (Hiff eq_refl); lia.
Qed.

(** C2.  [Create] fails with the dates-conflict error exactly when a
    stored reservation of the same tool with status Accepted overlaps the
    requested range, and then stores nothing; reservations in any other
    status do not block it.  Without such a reservation it stores, under
    an identifier not in use, a reservation with status Pending, the
    requested tool, parties and dates and both timestamps set to now, and
    returns it; the reservations stored before stay as they were. *)
Theorem create_conflict_iff_accepted_overlap
    now (req : db.CreateBookingRequest) (fromUser toUser : ObjectID) d :
  let out := MemCreate now req fromUser toUser d in
  let blocked :=
    ∃ id b, bookings d !! id = Some b ∧ ToolID b = req_ToolID req ∧
            Status b = BookingStatusAccepted ∧
            StartDate b < req_EndDate req ∧ EndDate b > req_StartDate req in
  (out.1 = Error db.ErrBookingDatesConflict ↔ blocked) ∧
  (blocked → out.2 = d) ∧
  (¬ blocked →
     ∃ b, out.1 = Ok b ∧
          Status b = BookingStatusPending ∧
          CreatedAt b = now ∧ UpdatedAt b = now ∧
          ToolID b = req_ToolID req ∧
          FromUserID b = fromUser ∧ ToUserID b = toUser ∧
          StartDate b = req_StartDate req ∧ EndDate b = req_EndDate req ∧
          bookings d !! ID b = None ∧
          bookings out.2 !! ID b = Some b ∧
          ∀ id, id ≠ ID b → bookings out.2 !! id = bookings d !! id) ∧
  ((∀ id b, bookings d !! id = Some b → ToolID b = req_ToolID req →
            Status b ∈ [BookingStatusPending; BookingStatusRejected;
                        BookingStatusCancelled; BookingStatusReturned]) →
     ∃ b, out.1 = Ok b ∧ Status b = BookingStatusPending).
Proof.
  intros out blocked.
  pose proof (hasConflict_spec (bookings d) (req_ToolID req)
                (req_StartDate req) (req_EndDate req)) as Hspec.
  fold blocked in Hspec. subst out. unfold MemCreate.
  destruct (hasConflict _ _ _ _) eqn:Hc; simpl.
  - assert (Hb : blocked) by (by apply Hspec).
    repeat split; try done.
    intros Hall. destruct Hb as (id & b & Hm & Htool & Hst & _).
    specialize (Hall id b Hm Htool). rewrite Hst in Hall.
    rewrite !elem_of_cons, elem_of_nil in Hall. intuition discriminate.
  - assert (Hnb : ¬ blocked).
    { intros Hb. apply Hspec in Hb. discriminate. }
    split; [split; [discriminate | done] |].
    split; [done |]. split.
    + intros _. eexists. split; [reflexivity |]. simpl.
      repeat split; try reflexivity.
      * apply newObjectID_fresh.
      * apply lookup_insert_eq.
      * intros id Hne. by apply lookup_insert_ne.
    + intros _. eexists. split; reflexivity.
Qed.

(** HandleCreateBooking on the in-memory database: once the caller, the
    body, the tool and its owner have been found, the handler answers
    with ErrBookingDatesConflict exactly when the detector reports a
    conflict for the requested tool and range. *)
Lemma create_handler_conflict_iff `{!Codec} now r d fromUser req toolID tool toUser :
  UserID r ≠ "" →
  GetUserByEmail d (UserID r) = Some fromUser →
  UnmarshalCreateBookingRequest (Data r) = Some req →
  ParseInt (cbr_ToolID req) = Some toolID →
  GetToolByID d toolID = Ok (Some tool) →
  GetUserByID d (Tool_UserID tool) = Some toUser →
  (run (HandleCreateBooking now r) d).1 = Error ErrBookingDatesConflict ↔
  hasConflict (bookings d) (FormatInt toolID)
    (time_Unix (cbr_StartDate req) 0) (time_Unix (cbr_EndDate req) 0) = true.
Proof.
  intros Hu Hfrom Hreq Hid Htool Hto.
  destruct (create_after_lookup now r d fromUser req toolID tool toUser
              Hu Hfrom Hreq Hid Htool Hto) as [Hres _].
  rewrite Hres. simpl. unfold MemCreate. simpl.
  destruct (hasConflict _ _ _ _); simpl.
  - done.
  - split; discriminate.
Qed.

(** TestBookingDateConflicts, replayed on the in-memory database: two
    requests for the same tool and days are both created; once the first
    is accepted, a third request for these days is refused with the
    dates-conflict error, and the second can still be rejected. *)
Lemma TestBookingDateConflicts_replay :
  let request contact comments :=
    {| req_ToolID := "1"; req_StartDate := day; req_EndDate := 2 * day;
       req_Contact := contact; req_Comments := comments |} in
  let d0 := {| users := [bob; alice]; tools := [mkTool 1 1]; bookings := ∅ |} in
  ∃ createdBooking1 d1 createdBooking2 d2 d3 d4,
    MemCreate 1 (request "test1@test.com" "Test booking 1") 2 1 d0
      = (Ok createdBooking1, d1) ∧
    MemCreate 2 (request "test2@test.com" "Test booking 2") 2 1 d1
      = (Ok createdBooking2, d2) ∧
    MemUpdateStatus 3 (ID createdBooking1) BookingStatusAccepted d2 = (None, d3) ∧
    MemCreate 4 (request "test3@test.com" "Test booking 3") 2 1 d3
      = (Error db.ErrBookingDatesConflict, d3) ∧
    MemUpdateStatus 5 (ID createdBooking2) BookingStatusRejected d3 = (None, d4).
Proof.
  do 6 eexists. repeat split; vm_compute; reflexivity.
Qed.

(** ** Transitions on the in-memory database *)

Lemma MemUpdateStatus_found now id s d b :
  bookings d !! id = Some b →
  MemUpdateStatus now id s d =
    (None, {| users := users d; tools := tools d;
              bookings := <[id := withStatus s now b]> (bookings d) |}).
Proof. intros Hb. unfold MemUpdateStatus. by rewrite Hb. Qed.

Lemma addresses_stored d r param user id b :
  addresses d r param user id b → bookings d !! id = Some b.
Proof. intros (_ & _ & _ & Hget). simpl in Hget. unfold MemGet in Hget. congruence. Qed.

(** The update leaves the request addressed to the same reservation, now
    with its new status. *)
Lemma addresses_after_update now s d r param user id b :
  addresses d r param user id b →
  addresses (MemUpdateStatus now id s d).2 r param user id (withStatus s now b).
Proof.
  intros Haddr. pose proof (addresses_stored _ _ _ _ _ _ Haddr) as Hb.
  destruct Haddr as (Hu & Hg & Hid & _).
  rewrite (MemUpdateStatus_found _ _ _ _ _ Hb). simpl.
  repeat split; try assumption.
  simpl. unfold MemGet. simpl. by rewrite lookup_insert_eq.
Qed.

Lemma afterUpdate_stored now id s d b (w : World) :
  bookings d !! id = Some b →
  afterUpdate now id s d w =
    (Ok Nil,
     {| database := {| users := users d; tools := tools d;
                       bookings := <[id := withStatus s now b]> (bookings d) |};
        calls := CallUpdateStatus id s :: calls w |}).
Proof.
  intros Hb. unfold afterUpdate. simpl.
  by rewrite (MemUpdateStatus_found _ _ _ _ _ Hb).
Qed.


(** C6.  Mark-returned has no test on the current status: whatever the
    status of the reservation (nothing is assumed about [Status b]), the
    request of its owner returns nil and the reservation is stored with
    status Returned and the updated timestamp set to now; the other
    reservations stay as they were. *)
Theorem return_from_any_status now r d user id b :
  addresses d r "bookingId" user id b →
  ToUserID b = User_ID user →
  ∃ w, run (HandleReturnBooking now r) d = (Ok Nil, w) ∧
       bookings (database w) !! id = Some (withStatus BookingStatusReturned now b) ∧
       (Status <$> bookings (database w) !! id) = Some BookingStatusReturned ∧
       (∀ id', id' ≠ id → bookings (database w) !! id' = bookings d !! id').
Proof.
  intros Haddr Hown.
  rewrite (return_after_lookup _ _ _ _ _ _ Haddr).
  rewrite decide_False by (intros Hne; contradiction).
  rewrite (afterUpdate_stored _ _ _ _ _ _ (addresses_stored _ _ _ _ _ _ Haddr)).
  eexists. split; [reflexivity |]. simpl. rewrite lookup_insert_eq.
  repeat split. intros id' Hne. by apply lookup_insert_ne.
Qed.

(** C7, as the code has it.  When a transition handler has succeeded, the
    same request repeated at once fails with the can-only-...-pending
    error, a StateError, for the targets Accepted, Rejected and Cancelled;
    for the target Returned, which has no test on the current status, the
    repeated request succeeds again. *)
Theorem repeated_transition now now' target h r d p w :
  transitionHandler target = Some h →
  run (h now r) d = (Ok p, w) →
  (run (h now' r) (database w)).1 =
    match target with
    | BookingStatusAccepted => Error ErrCanOnlyAcceptPending
    | BookingStatusRejected => Error ErrCanOnlyDenyPending
    | BookingStatusCancelled => Error ErrCanOnlyCancelPending
    | _ => Ok Nil
    end.
Proof.
  intros Hh Hrun.
  destruct (transition_success_inv _ _ _ _ _ _ _ Hh Hrun)
    as (user & id & b & Haddr & Hrole & Hupd & ->).
  pose proof (addresses_after_update now target _ _ _ _ _ _ Haddr) as Haddr'.
  simpl in Hupd. rewrite Hupd in Haddr'. simpl in Haddr'.
  destruct target; simpl in Hh; simplify_eq; simpl in Haddr'.
  - rewrite (accept_after_lookup _ _ _ _ _ _ Haddr').
    rewrite decide_False by (intros Hne; contradiction).
    by rewrite decide_True.
  - rewrite (deny_after_lookup _ _ _ _ _ _ Haddr').
    rewrite decide_False by (intros Hne; contradiction).
    by rewrite decide_True.
  - rewrite (cancel_after_lookup _ _ _ _ _ _ Haddr').
    rewrite decide_False by (intros Hne; contradiction).
    by rewrite decide_True.
  - rewrite (return_after_lookup _ _ _ _ _ _ Haddr').
    rewrite decide_False by (intros Hne; contradiction).
    by rewrite (afterUpdate_stored _ _ _ _ _ _ (addresses_stored _ _ _ _ _ _ Haddr')).
Qed.

End MemoryDatabase.

(** * Concrete runs on the small database *)

Lemma addresses_example (caller : string) (user : User) (param : string)
    (r : Request) (id : ObjectID) (b : Booking) :
  UserID r = caller → caller ≠ "" →
  MemGetUserByEmail exampleDB caller = Some user →
  ObjectIDFromHex (URLParam (Context r) param) = Some id →
  bookings exampleDB !! id = Some b →
  addresses exampleDB r param user id b.
Proof.
  intros Hc Hne Hu Hid Hb. unfold addresses. rewrite Hc.
  split; [exact Hne |]. split; [exact Hu |]. split; [exact Hid |].
  simpl. unfold MemGet. rewrite Hb. reflexivity.
Defined.



Lemma overlap_is_half_open_witness :
  Status booking1 = BookingStatusAccepted ∧
  EndDate booking1 = 2 * day ∧
  hasConflict {[ID booking1 := booking1]} (ToolID booking1) (2 * day) (3 * day) = false ∧
  (hasConflict {[ID booking1 := booking1]} (ToolID booking1) (2 * day - 1) (3 * day) = true
   ↔ StartDate booking1 < 3 * day ∧ EndDate booking1 > 2 * day - 1).
Proof.
  split; [reflexivity |]. split; [reflexivity |]. split.
  - exact (proj1 (proj2 (overlap_is_half_open booking1 (2 * day) (3 * day) eq_refl))
             eq_refl).
  - exact (proj1 (overlap_is_half_open booking1 (2 * day - 1) (3 * day) eq_refl)).
Defined.

Lemma non_pending_transition_witness :
  Status booking1 ≠ BookingStatusPending ∧
  rejects ErrCanOnlyAcceptPending exampleDB
    (run (HandleAcceptPetition 100 (petitionRequest "bob@emprius.cat" hex16)) exampleDB) ∧
  rejects ErrCanOnlyDenyPending exampleDB
    (run (HandleDenyPetition 100 (petitionRequest "bob@emprius.cat" hex16)) exampleDB).
Proof.
  split; [discriminate |].
  refine (proj1 (non_pending_transition_is_state_error 100
            (petitionRequest "bob@emprius.cat" hex16) exampleDB bob 16 booking1
            _ _) _).
  - apply (addresses_example "bob@emprius.cat"); (reflexivity || discriminate).
  - discriminate.
  - reflexivity.
Defined.

Lemma wrong_actor_witness :
  rejects ErrOnlyOwnerCanAccept exampleDB
    (run (HandleAcceptPetition 100 (petitionRequest "carol@emprius.cat" hex17)) exampleDB) ∧
  rejects ErrOnlyOwnerCanDeny exampleDB
    (run (HandleDenyPetition 100 (petitionRequest "carol@emprius.cat" hex17)) exampleDB) ∧
  rejects ErrOnlyOwnerCanReturn exampleDB
    (run (HandleReturnBooking 100 (bookingRequest "carol@emprius.cat" hex17)) exampleDB).
Proof.
  refine (proj1 (wrong_actor_is_role_error 100
            (petitionRequest "carol@emprius.cat" hex17)
            (bookingRequest "carol@emprius.cat" hex17) exampleDB carol 17 booking2
            _ _) _).
  - apply (addresses_example "carol@emprius.cat"); (reflexivity || discriminate).
  - apply (addresses_example "carol@emprius.cat"); (reflexivity || discriminate).
  - discriminate.
Defined.

Lemma return_from_any_status_witness :
  Status booking2 = BookingStatusPending ∧
  ∃ w, run (HandleReturnBooking 100 (bookingRequest "bob@emprius.cat" hex17))
         exampleDB = (Ok Nil, w) ∧
       bookings (database w) !! 17%N
         = Some (withStatus BookingStatusReturned 100 booking2) ∧
       (Status <$> bookings (database w) !! 17%N) = Some BookingStatusReturned ∧
       (∀ id', id' ≠ 17%N → bookings (database w) !! id' = bookings exampleDB !! id').
Proof.
  split; [reflexivity |].
  refine (return_from_any_status 100 (bookingRequest "bob@emprius.cat" hex17)
            exampleDB bob 17 booking2 _ _).
  - apply (addresses_example "bob@emprius.cat"); (reflexivity || discriminate).
  - reflexivity.
Defined.

(** C7, counterexample.  Bob, the owner, marks booking 16 as returned,
    which succeeds; the same request repeated at once succeeds again, with
    no error at all, so no StateError. *)
Lemma repeated_return_succeeds :
  let r := bookingRequest "bob@emprius.cat" hex16 in
  let first := run (HandleReturnBooking 100 r) exampleDB in
  let second := run (HandleReturnBooking 101 r) (database first.2) in
  ToUserID booking1 = User_ID bob ∧
  first.1 = Ok Nil ∧
  second.1 = Ok Nil ∧
  (∀ e, second.1 ≠ Error e) ∧
  (Status <$> bookings (database second.2) !! 16%N) = Some BookingStatusReturned.
Proof. repeat split; try reflexivity. intros e. discriminate. Qed.

Lemma repeated_transition_witness :
  let r := petitionRequest "bob@emprius.cat" hex17 in
  let first := run (HandleAcceptPetition 100 r) exampleDB in
  first.1 = Ok Nil ∧
  (run (HandleAcceptPetition 101 r) (database first.2)).1
    = Error ErrCanOnlyAcceptPending.
Proof.
  split; [reflexivity |].
  exact (repeated_transition 100 101 BookingStatusAccepted HandleAcceptPetition
           (petitionRequest "bob@emprius.cat" hex17) exampleDB Nil
           (run (HandleAcceptPetition 100 (petitionRequest "bob@emprius.cat" hex17))
                exampleDB).2
           eq_refl eq_refl).
Defined.

Lemma rate_booking_witness :
  let codec := bodyCodec None (Some {| Rating := 9; BookingID := hex16 |}) in
  let out := run (HandleRateBooking (H := codec) (rateRequest "alice@emprius.cat"))
               exampleDB in
  out.1 = Error ErrInvalidRating ∧ untouched exampleDB out.2.
Proof.
  pose proof (@rate_booking_validates_only MemDB MemServices
                (bodyCodec None (Some {| Rating := 9; BookingID := hex16 |}))
                (rateRequest "alice@emprius.cat") exampleDB alice
                {| Rating := 9; BookingID := hex16 |} 16%N booking1
                ltac:(discriminate) eq_refl eq_refl eq_refl eq_refl) as Hrate.
  simpl in Hrate.
  destruct Hrate as (_ & Hbad & _ & Hsame & _).
  split; [apply Hbad; [left; reflexivity | right; reflexivity] | exact Hsame].
Defined.

Lemma transition_error_witness :
  let out := run (HandleCancelRequest 100 (petitionRequest "" hex17)) exampleDB in
  out.1 = Error ErrUnauthorized ∧
  untouched exampleDB out.2 ∧
  (∀ id s, CallUpdateStatus id s ∉ calls out.2).
Proof.
  split; [reflexivity |].
  pose proof (transition_error_leaves_store BookingStatusCancelled
                HandleCancelRequest 100 (petitionRequest "" hex17) exampleDB
                ErrUnauthorized
                (run (HandleCancelRequest 100 (petitionRequest "" hex17)) exampleDB).2
                eq_refl eq_refl ltac:(discriminate)) as (Hsame & Hlog & _).
  split; [exact Hsame | exact Hlog].
Defined.

Lemma get_booking_ignores_caller_witness :
  let anonymous := bookingRequest "" hex16 in
  let owner := bookingRequest "bob@emprius.cat" hex16 in
  run (HandleGetBooking anonymous) exampleDB = run (HandleGetBooking owner) exampleDB ∧
  (run (HandleGetBooking anonymous) exampleDB).1
    = Ok (OneBooking (convertBookingToResponse booking1)).
Proof.
  split.
  - exact (get_booking_ignores_caller exampleDB (bookingRequest "" hex16)
             (bookingRequest "bob@emprius.cat" hex16) eq_refl eq_refl eq_refl).
  - reflexivity.
Defined.

(** * Further properties of the booking handlers *)

Section TransitionProperties.
Context {DB : Type} `{!Services DB} `{!Codec}.
Implicit Types (d : DB) (r : Request) (now : Time) (b : Booking) (user : User).

(** A transition handler returns nil exactly when the request comes from a
    known user, names a stored booking, the user is the party the route
    is for (the requester for cancel, the owner otherwise), the booking
    is Pending (not asked for mark-returned) and [UpdateStatus] returns
    no error. *)
Theorem transition_succeeds_iff target h now r d :
  transitionHandler target = Some h →
  (run (h now r) d).1 = Ok Nil ↔
  ∃ user id b,
    addresses d r (transitionParam target) user id b ∧
    match target with
    | BookingStatusCancelled => FromUserID b
    | _ => ToUserID b
    end = User_ID user ∧
    (target ≠ BookingStatusReturned → Status b = BookingStatusPending) ∧
    (UpdateStatus now id target d).1 = None.
Proof.
  intros Hh. split.
  - destruct (run (h now r) d) as [res w] eqn:Hrun. simpl. intros ->.
    destruct target; simpl in Hh; simplify_eq; handler_unfold; handler_cases;
      eexists _, _, _; (split; [repeat split; eassumption |]);
      (split; [eassumption |]);
      (split; [intros Hne; first [assumption | by destruct Hne] |]);
      match goal with
      | Hupd : UpdateStatus _ _ _ _ = _ |- _ => simpl in Hupd; rewrite Hupd
      end;
      reflexivity.
  - intros (user & id & b & Haddr & Hrole & Hst & Hupd).
    destruct target; simpl in Hh; simplify_eq; simpl in Haddr.
    + rewrite (accept_after_lookup _ _ _ _ _ _ Haddr).
      rewrite decide_False by (intros Hne; contradiction).
      rewrite decide_False by (intros Hne; apply Hne, Hst; discriminate).
      unfold afterUpdate. destruct (UpdateStatus _ _ _ _) as [[err|] d']; done.
    + rewrite (deny_after_lookup _ _ _ _ _ _ Haddr).
      rewrite decide_False by (intros Hne; contradiction).
      rewrite decide_False by (intros Hne; apply Hne, Hst; discriminate).
      unfold afterUpdate. destruct (UpdateStatus _ _ _ _) as [[err|] d']; done.
    + rewrite (cancel_after_lookup _ _ _ _ _ _ Haddr).
      rewrite decide_False by (intros Hne; contradiction).
      rewrite decide_False by (intros Hne; apply Hne, Hst; discriminate).
      unfold afterUpdate. destruct (UpdateStatus _ _ _ _) as [[err|] d']; done.
    + rewrite (return_after_lookup _ _ _ _ _ _ Haddr).
      rewrite decide_False by (intros Hne; contradiction).
      unfold afterUpdate. destruct (UpdateStatus _ _ _ _) as [[err|] d']; done.
Qed.

(** Whatever a transition handler answers, it has written at most once:
    either no writing service was called and the database is the one
    before, or the only writing call is [UpdateStatus] on the booking the
    route parameter names, with the status of the route, and the database
    is the one that call left.  [Create] is never called. *)
Theorem transition_writes_at_most_once target h now r d res w :
  transitionHandler target = Some h →
  run (h now r) d = (res, w) →
  (filter (λ c, isWrite c = true) (calls w) = [] ∧ database w = d) ∨
  (∃ id, ObjectIDFromHex (URLParam (Context r) (transitionParam target)) = Some id ∧
         filter (λ c, isWrite c = true) (calls w) = [CallUpdateStatus id target] ∧
         database w = (UpdateStatus now id target d).2).
Proof.
  intros Hh Hrun.
  destruct target; simpl in Hh; simplify_eq; handler_unfold; handler_cases;
    first [ left; split; reflexivity
          | right; eexists; split; [reflexivity || eassumption |];
            match goal with
            | Hupd : UpdateStatus _ _ _ _ = _ |- _ => simpl in Hupd; rewrite Hupd
            end;
            split; reflexivity ].
Qed.

(** The six handlers that start with the test of [r.UserID] answer
    ErrUnauthorized exactly when it is empty, and then without having called
    any service. *)
Theorem unauthorized_iff_no_identity now :
  Forall (λ h : Request → @Handler DB Payload, ∀ r d,
            ((run (h r) d).1 = Error ErrUnauthorized ↔ UserID r = "") ∧
            (UserID r = "" → (run (h r) d).2 = {| database := d; calls := [] |}))
    [HandleAcceptPetition now; HandleDenyPetition now; HandleCancelRequest now;
     HandleReturnBooking now; HandleCreateBooking now; HandleRateBooking].
Proof.
  repeat (apply Forall_cons_2;
          [ intros r d; destruct (run _ d) as [res w] eqn:Hrun; simpl;
            handler_unfold; handler_cases; done |]).
  apply Forall_nil_2.
Qed.

Lemma ObjectIDFromHex_length s id :
  ObjectIDFromHex s = Some id → String.length s = 24%nat.
Proof. unfold ObjectIDFromHex. case_decide; [done | discriminate]. Qed.

(** An identifier in the URL that is not 24 characters long, a missing
    route parameter included, is answered with ErrInvalidRequestBodyData
    before any booking is looked up: by HandleGetBooking without any
    service call, by the transition handlers after the look-up of the
    caller only. *)
Theorem malformed_id_is_rejected now r d :
  (∀ key, RouteParams (Context r) !! key = None →
          String.length (URLParam (Context r) key) ≠ 24%nat) ∧
  (String.length (URLParam (Context r) "bookingId") ≠ 24%nat →
     run (HandleGetBooking r) d =
       (Error ErrInvalidRequestBodyData, {| database := d; calls := [] |})) ∧
  (∀ target h user,
     transitionHandler target = Some h →
     String.length (URLParam (Context r) (transitionParam target)) ≠ 24%nat →
     UserID r ≠ "" →
     GetUserByEmail d (UserID r) = Some user →
     run (h now r) d =
       (Error ErrInvalidRequestBodyData,
        {| database := d; calls := [CallGetUserByEmail (UserID r)] |})).
Proof.
  split; [| split].
  - intros key Hkey. unfold URLParam. rewrite Hkey. simpl. discriminate.
  - intros Hlen. destruct (ObjectIDFromHex (URLParam (Context r) "bookingId"))
      as [id|] eqn:Hid.
    + apply ObjectIDFromHex_length in Hid. contradiction.
    + handler_unfold. simpl. rewrite Hid. reflexivity.
  - intros target h user Hh Hlen Hu Hg.
    destruct (ObjectIDFromHex (URLParam (Context r) (transitionParam target)))
      as [id|] eqn:Hid.
    + apply ObjectIDFromHex_length in Hid. contradiction.
    + destruct target; simpl in Hh; simplify_eq; simpl in Hid;
        handler_unfold; simpl; rewrite decide_False by assumption; simpl;
        rewrite Hg; simpl; rewrite Hid; reflexivity.
Qed.

(** ** Creation through HandleCreateBooking *)

(** Every call of [Create] that HandleCreateBooking makes is made for the
    caller as requester and for the owner of the tool as owner, with the
    tool, dates and texts of the request body: the caller's identity comes
    from [r.UserID], the owner from the stored tool, never from the body. *)
Theorem create_booking_parties now r d res w dbReq fromUserID toUserID :
  run (HandleCreateBooking now r) d = (res, w) →
  CallCreate dbReq fromUserID toUserID ∈ calls w →
  ∃ fromUser req toolID tool toUser,
    GetUserByEmail d (UserID r) = Some fromUser ∧ fromUserID = User_ID fromUser ∧
    UnmarshalCreateBookingRequest (Data r) = Some req ∧
    ParseInt (cbr_ToolID req) = Some toolID ∧
    GetToolByID d toolID = Ok (Some tool) ∧
    GetUserByID d (Tool_UserID tool) = Some toUser ∧ toUserID = User_ID toUser ∧
    dbReq = {| req_ToolID := FormatInt toolID;
               req_StartDate := time_Unix (cbr_StartDate req) 0;
               req_EndDate := time_Unix (cbr_EndDate req) 0;
               req_Contact := cbr_Contact req;
               req_Comments := cbr_Comments req |}.
Proof.
  intros Hrun Hin.
  handler_unfold; handler_cases; cbn in Hin;
    rewrite ?elem_of_cons, ?elem_of_nil in Hin;
    try (exfalso; intuition congruence);
    (destruct Hin as [Hin | Hin]; [| exfalso; intuition congruence]);
    simplify_eq; eexists _, _, _, _, _; repeat split; eassumption || reflexivity.
Qed.

(** When HandleCreateBooking fails with anything but the dates conflict or
    the internal server error, [Create] was not called and the database
    is the one before; when it fails with the dates conflict, [Create] was
    called once and came back with the conflict error of package db. *)
Theorem create_booking_failure now r d e w :
  run (HandleCreateBooking now r) d = (Error e, w) →
  (e ≠ ErrBookingDatesConflict → e ≠ ErrInternalServerError → untouched d w) ∧
  (e = ErrBookingDatesConflict →
     ∃ dbReq fromUserID toUserID,
       Create now dbReq fromUserID toUserID d
         = (Error db.ErrBookingDatesConflict, database w) ∧
       filter (λ c, isWrite c = true) (calls w)
         = [CallCreate dbReq fromUserID toUserID]).
Proof.
  intros Hrun.
  handler_unfold; handler_cases; (split; [intros Hc Hi | intros He]);
    try done;
    try (apply untouched_intro; simpl; [reflexivity | repeat constructor]).
  eexists _, _, _. split; [| reflexivity].
  match goal with Hcr : Create _ _ _ _ _ = _ |- _ => simpl in Hcr; exact Hcr end.
Qed.

(** ** Rating *)

(** HandleRateBooking returns nil only to a known user who is the
    requester or the owner of a stored booking and sends a rating from 1
    to 5. *)
Theorem rate_booking_sound r d p w :
  run (HandleRateBooking r) d = (Ok p, w) →
  ∃ user rateReq id b,
    UserID r ≠ "" ∧
    GetUserByEmail d (UserID r) = Some user ∧
    UnmarshalRateRequest (Data r) = Some rateReq ∧
    ObjectIDFromHex (BookingID rateReq) = Some id ∧
    Get d id = Ok (Some b) ∧
    (FromUserID b = User_ID user ∨ ToUserID b = User_ID user) ∧
    1 ≤ Rating rateReq ≤ 5 ∧
    p = Nil.
Proof.
  intros Hrun. handler_unfold; handler_cases.
  eexists _, _, _, _. repeat split; try eassumption; try lia.
Qed.

End TransitionProperties.

(** * Identifiers and dates in responses *)

Lemma hexValue_hexDigit n : hexValue (hexDigit n) = Some (n `mod` 16)%N.
Proof.
  unfold hexDigit.
  assert (Hlt : (n `mod` 16 < 16)%N) by (apply N.mod_lt; lia).
  rewrite <- (N2Nat.id (n `mod` 16)%N) at 2.
  assert (Hk : (N.to_nat (n `mod` 16)%N < 16)%nat) by lia.
  revert Hk. generalize (N.to_nat (n `mod` 16)%N). intros k Hk.
  do 16 (destruct k as [|k]; [reflexivity |]). lia.
Qed.

Lemma hexDecode_hexEncode digits : ∀ n rest acc,
  hexDecode (hexEncode digits n rest) acc =
  hexDecode rest (acc * 16 ^ N.of_nat digits + n `mod` 16 ^ N.of_nat digits)%N.
Proof.
  induction digits as [|digits IH]; intros n rest acc.
  - simpl. f_equal. rewrite N.mod_1_r. lia.
  - cbn [hexEncode]. rewrite IH. cbn [hexDecode]. rewrite hexValue_hexDigit.
    f_equal. rewrite Nat2N.inj_succ, N.pow_succ_r'.
    rewrite (N.Div0.mod_mul_r n 16 (16 ^ N.of_nat digits)). lia.
Qed.

Lemma hexEncode_length digits : ∀ n rest,
  String.length (hexEncode digits n rest) = (digits + String.length rest)%nat.
Proof.
  induction digits as [|digits IH]; intros n rest; [reflexivity |].
  cbn [hexEncode]. rewrite IH. simpl. lia.
Qed.

Lemma ObjectIDFromHex_Hex (id : ObjectID) :
  (id < 2 ^ 96)%N → ObjectIDFromHex (Hex id) = Some id.
Proof.
  intros Hid. unfold ObjectIDFromHex, Hex.
  rewrite decide_True by (by rewrite hexEncode_length).
  rewrite hexDecode_hexEncode. simpl hexDecode. f_equal.
  change (16 ^ N.of_nat 24)%N with (2 ^ 96)%N.
  rewrite N.mod_small by assumption. lia.
Qed.

Section ResponseProperties.
Context {DB : Type} `{!Services DB}.

(** The identifier a response carries leads back to the booking: for a
    stored booking [b] (its identifier twelve bytes long), HandleGetBooking
    called with the [ID] text of [convertBookingToResponse b] as route
    parameter looks up [b] and returns the same response. *)
Theorem response_id_fetches_booking (d : DB) r b :
  (ID b < 2 ^ 96)%N →
  Get d (ID b) = Ok (Some b) →
  URLParam (Context r) "bookingId" = resp_ID (convertBookingToResponse b) →
  run (HandleGetBooking r) d =
    (Ok (OneBooking (convertBookingToResponse b)),
     {| database := d; calls := [CallGet (ID b)] |}).
Proof.
  intros Hid Hget Hparam. rewrite get_booking_outcome, Hparam.
  change (resp_ID (convertBookingToResponse b)) with (Hex (ID b)).
  rewrite (ObjectIDFromHex_Hex _ Hid), Hget. reflexivity.
Qed.

End ResponseProperties.

(** A response gives the dates of a booking in whole seconds, rounded
    down: a date of [sec] seconds and [nsec] nanoseconds, and so one made
    by HandleCreateBooking with [time.Unix(sec, 0)], comes back as [sec]. *)
Theorem response_dates_are_whole_seconds b startSec startNsec endSec endNsec :
  StartDate b = time_Unix startSec startNsec →
  EndDate b = time_Unix endSec endNsec →
  0 ≤ startNsec < nanosPerSecond →
  0 ≤ endNsec < nanosPerSecond →
  resp_StartDate (convertBookingToResponse b) = startSec ∧
  resp_EndDate (convertBookingToResponse b) = endSec.
Proof.
  intros Hs He Hsn Hen. simpl. rewrite Hs, He. unfold Unix, time_Unix.
  unfold nanosPerSecond in *.
  split; symmetry; eapply Z.div_unique_pos with (r := _); [| rewrite Z.mul_comm; reflexivity | | rewrite Z.mul_comm; reflexivity]; assumption.
Qed.

(** * The listing handlers *)

Lemma bookingResponses_fill (l : list Booking) : ∀ filled : list BookingResponse,
  foldl (λ response ib, <[ib.1 := convertBookingToResponse ib.2]> response)
        (filled ++ replicate (length l) zeroBookingResponse)%list
        (zip (seq (length filled) (length l)) l)
  = (filled ++ (convertBookingToResponse <$> l))%list.
Proof.
  induction l as [|x l IH]; intros filled; [reflexivity |].
  simpl.
  replace (length filled) with (length filled + 0)%nat at 1 by lia.
  rewrite insert_app_r. simpl.
  rewrite (cons_middle _ filled), app_assoc.
  replace (S (length filled)) with (length (filled ++ [convertBookingToResponse x])%list)
    by (rewrite length_app; simpl; lia).
  rewrite IH. by rewrite <- app_assoc.
Qed.

Section ListingProperties.
Context {DB : Type} `{!Services DB} `{!ListServices DB}.

(** The loop that fills the response slice by index gives one response
    for each booking, in the order of the bookings; so each listing
    handler, for a known caller, returns the conversions of the bookings
    its query found, in the order the query gave them, or the internal
    server error when the query failed. *)
Theorem listing_handlers_convert_in_order (d : DB) r user :
  UserID r ≠ "" →
  GetUserByEmail d (UserID r) = Some user →
  (∀ bookings, bookingResponses bookings = convertBookingToResponse <$> bookings) ∧
  (run (HandleGetBookingRequests r) d).1 =
    match GetUserRequests d (User_ID user) with
    | Ok bookings => Ok (convertBookingToResponse <$> bookings)
    | Error _ => Error ErrInternalServerError
    end ∧
  (run (HandleGetBookingPetitions r) d).1 =
    match GetUserPetitions d (User_ID user) with
    | Ok bookings => Ok (convertBookingToResponse <$> bookings)
    | Error _ => Error ErrInternalServerError
    end ∧
  (run (HandleGetPendingRatings r) d).1 =
    match GetPendingRatings d (User_ID user) with
    | Ok bookings => Ok (convertBookingToResponse <$> bookings)
    | Error _ => Error ErrInternalServerError
    end.
Proof.
  intros Hu Hg.
  assert (Hloop : ∀ bookings,
            bookingResponses bookings = convertBookingToResponse <$> bookings).
  { intros bookings. unfold bookingResponses.
    exact (bookingResponses_fill bookings []). }
  split; [exact Hloop |].
  unfold run, HandleGetBookingRequests, HandleGetBookingPetitions,
    HandleGetPendingRatings, svcGetUserRequests, svcGetUserPetitions,
    svcGetPendingRatings. handler_unfold. simpl.
  rewrite !decide_False by assumption. simpl. rewrite Hg. simpl.
  repeat split.
  - destruct (GetUserRequests d (User_ID user)); simpl; [by rewrite Hloop | done].
  - destruct (GetUserPetitions d (User_ID user)); simpl; [by rewrite Hloop | done].
  - destruct (GetPendingRatings d (User_ID user)); simpl; [by rewrite Hloop | done].
Qed.

(** A listing handler answers ErrUnauthorized exactly when [r.UserID] is
    empty and ErrUserNotFound exactly when the non-empty [r.UserID] is not
    the e-mail of a user; in no case does it change the database or call
    a writing service. *)
Theorem listing_handlers_guard (d : DB) r :
  Forall (λ h : Request → @Handler DB (list BookingResponse),
            ((run (h r) d).1 = Error ErrUnauthorized ↔ UserID r = "") ∧
            ((run (h r) d).1 = Error ErrUserNotFound ↔
               UserID r ≠ "" ∧ GetUserByEmail d (UserID r) = None) ∧
            untouched d (run (h r) d).2)
    [HandleGetBookingRequests; HandleGetBookingPetitions; HandleGetPendingRatings].
Proof.
  repeat (apply Forall_cons_2;
    [ destruct (run _ d) as [res w] eqn:Hrun; simpl;
      unfold HandleGetBookingRequests, HandleGetBookingPetitions,
        HandleGetPendingRatings, svcGetUserRequests, svcGetUserPetitions,
        svcGetPendingRatings in Hrun; handler_unfold; handler_cases;
      (split; [done |]); (split; [split; [done | intros [? ?]; congruence] |]);
      (apply untouched_intro; simpl; [reflexivity | repeat constructor]) |]).
  apply Forall_nil_2.
Qed.

End ListingProperties.

(** * Sending a reply (api/handler.go) *)

Lemma written_app (w1 w2 : list WriterCall) :
  written (w1 ++ w2)%list = (written w1 ++ written w2)%list.
Proof. unfold written. apply flat_map_app. Qed.

Lemma app_eq_self {A} (l extra : list A) : (l ++ extra)%list = l → extra = [].
Proof.
  intros Heq. apply (app_inv_head l). by rewrite app_nil_r.
Qed.

(** [Send] leaves the writer alone exactly when it refuses to send: for a
    status code below 100 or from 600 on, or on a closed connection; it
    then returns an error.  Otherwise the headers and the status line
    have been written. *)
Theorem Send_refusal (writer : ResponseWriter) connectionClosed msg httpStatusCode w :
  let out := Send writer connectionClosed msg httpStatusCode w in
  (out.2 = w ↔
     httpStatusCode < 100 ∨ httpStatusCode >= 600 ∨ connectionClosed = true) ∧
  (out.2 = w → is_Some out.1) ∧
  (out.2 ≠ w →
     ∃ rest, out.2 =
       (w ++ [CallHeaderSet "Content-Length" (Sprintf_d (Z.of_nat (length msg) + 1));
              CallHeaderSet "Content-Type" "application/json";
              CallWriteHeader httpStatusCode] ++ rest)%list).
Proof.
  unfold Send. cbv zeta.
  case_decide as Hcode.
  { simpl. split; [split; [intros _; lia | done] |]. split; [by eexists | done]. }
  destruct connectionClosed.
  { simpl. split; [split; [intros _; by right; right | done] |].
    split; [by eexists | done]. }
  assert (Hgrow : ∀ (rest : list WriterCall) (err : option string),
    let w' := (w ++ [CallHeaderSet "Content-Length"
                       (Sprintf_d (Z.of_nat (length msg) + 1));
                     CallHeaderSet "Content-Type" "application/json";
                     CallWriteHeader httpStatusCode] ++ rest)%list in
    ((err, w').2 = w ↔
       httpStatusCode < 100 ∨ httpStatusCode >= 600 ∨ false = true) ∧
    ((err, w').2 = w → is_Some (err, w').1) ∧
    ((err, w').2 ≠ w → ∃ rest', (err, w').2 =
       (w ++ [CallHeaderSet "Content-Length"
                (Sprintf_d (Z.of_nat (length msg) + 1));
              CallHeaderSet "Content-Type" "application/json";
              CallWriteHeader httpStatusCode] ++ rest')%list)).
  { intros rest err w'. simpl. subst w'.
    assert (Hne : (w ++ [CallHeaderSet "Content-Length"
                       (Sprintf_d (Z.of_nat (length msg) + 1));
                     CallHeaderSet "Content-Type" "application/json";
                     CallWriteHeader httpStatusCode] ++ rest)%list ≠ w).
    { intros Heq. apply app_eq_self in Heq. discriminate. }
    split; [split; [done | intros [? | [? | ?]]; [lia | lia | discriminate]] |].
    split; [done |]. intros _. by eexists. }
  case_decide; repeat (destruct (writer _ _));
    rewrite <- ?app_assoc; simpl; apply Hgrow.
Qed.

(** When the connection is open, the code is a valid one and no write
    fails, [Send] returns nil and the bytes it has handed to [Write] are
    the message followed by one newline, as many bytes as the
    Content-Length header announces. *)
Theorem Send_frames_message (writer : ResponseWriter) msg httpStatusCode w :
  100 ≤ httpStatusCode < 600 →
  (∀ before bytes, writer before bytes = Wrote) →
  ∃ body,
    Send writer false msg httpStatusCode w =
      (None,
       (w ++ [CallHeaderSet "Content-Length"
                (Sprintf_d (Z.of_nat (length (msg ++ newline)%list)));
              CallHeaderSet "Content-Type" "application/json";
              CallWriteHeader httpStatusCode] ++ body)%list) ∧
    written body = (msg ++ newline)%list ∧
    Forall (λ c, ∃ bytes, c = CallWrite bytes ∧ bytes ≠ []) body.
Proof.
  intros Hcode Hwrites. unfold Send. cbv zeta.
  rewrite decide_False by lia.
  replace (Z.of_nat (length (msg ++ newline)%list)) with (Z.of_nat (length msg) + 1)
    by (rewrite length_app; simpl; lia).
  case_decide as Hlen.
  - rewrite !Hwrites. exists [CallWrite msg; CallWrite newline].
    rewrite <- !app_assoc. simpl. split; [reflexivity |].
    split; [unfold newline; simpl; by rewrite ?app_nil_r |].
    repeat constructor; eexists; (split; [reflexivity |]);
      [intros ->; simpl in Hlen; lia | discriminate].
  - rewrite !Hwrites. exists [CallWrite newline].
    assert (msg = []) as -> by (destruct msg; [done | simpl in Hlen; lia]).
    rewrite <- !app_assoc. simpl.
    split; [reflexivity |]. split; [reflexivity |].
    repeat constructor. eexists. split; [reflexivity | discriminate].
Qed.

(** [Send] returns an error only when it refuses to send or when a write
    returned that error; a write that panics is recovered from and [Send]
    returns nil, although the message is sent without its final newline
    and so falls short of the announced Content-Length. *)
Theorem Send_errors_and_panics (writer : ResponseWriter) connectionClosed msg httpStatusCode w :
  (∀ err, (Send writer connectionClosed msg httpStatusCode w).1 = Some err →
     (httpStatusCode < 100 ∨ httpStatusCode >= 600) ∨ connectionClosed = true ∨
     ∃ before bytes, writer before bytes = WriteFailed err) ∧
  (100 ≤ httpStatusCode < 600 → connectionClosed = false → msg ≠ [] →
   writer (w ++ [CallHeaderSet "Content-Length"
                   (Sprintf_d (Z.of_nat (length msg) + 1));
                 CallHeaderSet "Content-Type" "application/json";
                 CallWriteHeader httpStatusCode])%list msg = WritePanicked →
   (Send writer connectionClosed msg httpStatusCode w).1 = None ∧
   written (Send writer connectionClosed msg httpStatusCode w).2
     = (written w ++ msg)%list).
Proof.
  split.
  - intros err. unfold Send. cbv zeta.
    case_decide; [by left |]. destruct connectionClosed; [by right; left |].
    case_decide;
      repeat (match goal with |- context [writer ?b ?m] =>
                destruct (writer b m) eqn:? end);
      simpl; intros Herr; simplify_eq; right; right; eauto.
  - intros Hcode -> Hmsg Hpanic. unfold Send. cbv zeta.
    rewrite decide_False by lia.
    rewrite decide_True by (destruct msg; [done | simpl; lia]).
    rewrite Hpanic. simpl. split; [reflexivity |].
    rewrite !written_app. simpl. by rewrite !app_nil_r.
Qed.

(** * The wrapper around the handlers (api/handler.go) *)

Lemma reply_inj code1 msg1 code2 msg2 w :
  reply code1 msg1 w = reply code2 msg2 w → code1 = code2 ∧ msg1 = msg2.
Proof.
  unfold reply. intros Heq. apply app_inv_head in Heq. by simplify_eq.
Qed.

Section RouterHandlerProperties.
Context {S D : Type}.
Variable Marshal : Response D → result string (list Byte.byte).
Variable handlerFunc : Request → S → result GoError D * S.
Implicit Types (req : HttpRequest) (s : S) (w : list WriterCall).


(** The status 200 is written only for a handler function that returned
    no error and whose response could be marshalled (the body is then
    that response with [Success] set) or for an [*HTTPError] that itself
    carries the code 200. *)
Theorem routerHandler_ok_status req s w msg :
  (routerHandler Marshal handlerFunc req s w).2 = reply 200 msg w →
  (∃ body handlerResp s',
     handlerFunc (handedRequest req body) s = (Ok handlerResp, s') ∧
     Marshal {| Response_Header := {| Success := true; Message := ""; ErrorCode := 0 |};
                Response_Data := Some handlerResp |} = Ok msg) ∨
  (∃ body err s',
     handlerFunc (handedRequest req body) s = (Error err, s') ∧
     httpErrorCode err = Some 200).
Proof.
  unfold routerHandler. cbv zeta.
  assert (Hserve : ∀ body,
    (let '(res, s') := handlerFunc (handedRequest req body) s in
     match res with
     | Ok handlerResp =>
         match Marshal {| Response_Header :=
                            {| Success := true; Message := ""; ErrorCode := 0 |};
                          Response_Data := Some handlerResp |} with
         | Ok data => (s', reply 200 data w)
         | Error err => (s', reply 500 (marshalOrNil Marshal (failureResponse err)) w)
         end
     | Error err =>
         match Marshal (failureResponse (errText err)) with
         | Ok msg0 => (s', reply (default 400 (httpErrorCode err)) msg0 w)
         | Error _ => (s', reply 500 internalServerErrorBody w)
         end
     end).2 = reply 200 msg w →
    (∃ body handlerResp s',
       handlerFunc (handedRequest req body) s = (Ok handlerResp, s') ∧
       Marshal {| Response_Header := {| Success := true; Message := ""; ErrorCode := 0 |};
                  Response_Data := Some handlerResp |} = Ok msg) ∨
    (∃ body err s',
       handlerFunc (handedRequest req body) s = (Error err, s') ∧
       httpErrorCode err = Some 200)).
  { intros body.
    destruct (handlerFunc (handedRequest req body) s) as [[resp|err] s'] eqn:Hrun.
    - destruct (Marshal _) as [data|merr] eqn:Hm; simpl; intros Heq;
        apply reply_inj in Heq as [Hc Hmsg]; [| discriminate].
      subst. left. eauto.
    - destruct (Marshal _) as [data|merr] eqn:Hm; simpl; intros Heq;
        apply reply_inj in Heq as [Hc Hmsg]; [| discriminate].
      right. exists body, err, s'. split; [done |].
      destruct (httpErrorCode err) as [code|]; simpl in Hc; [by subst | discriminate]. }
  destruct (http_Body req) as [reader|].
  - destruct (ReadAll reader) as [body|err].
    + destruct (Close reader) as [err|].
      * simpl. intros Heq. apply reply_inj in Heq as [Hc _]. discriminate.
      * apply Hserve.
    + simpl. intros Heq. apply reply_inj in Heq as [Hc _]. discriminate.
  - apply Hserve.
Qed.


End RouterHandlerProperties.

(** ** The path handed to the handlers *)

Lemma splitSlash_nonempty s : splitSlash s ≠ [].
Proof.
  destruct s as [|c rest]; simpl; [done |].
  case_decide; [done |]. destruct (splitSlash rest); done.
Qed.

Lemma concat_splitSlash s : String.concat "/" (splitSlash s) = s.
Proof.
  induction s as [|c rest IH]; [reflexivity |].
  simpl. case_decide as Hc.
  - subst c. pose proof (splitSlash_nonempty rest) as Hne.
    destruct (splitSlash rest) as [|first others]; [done |].
    simpl in *. by rewrite IH.
  - pose proof (splitSlash_nonempty rest) as Hne.
    destruct (splitSlash rest) as [|first others]; [done |].
    destruct others; simpl in *; by rewrite <- IH.
Qed.

Lemma splitSlash_no_slash s :
  Forall (λ piece, "/"%char ∉ list_ascii_of_string piece) (splitSlash s).
Proof.
  induction s as [|c rest IH]; simpl.
  - repeat constructor. simpl. apply not_elem_of_nil.
  - case_decide as Hc.
    + constructor; [simpl; apply not_elem_of_nil | exact IH].
    + destruct (splitSlash rest) as [|first others]; simpl.
      * repeat constructor. simpl. rewrite elem_of_cons, elem_of_nil. intuition congruence.
      * inversion IH; subst. constructor; [| done].
        simpl. rewrite elem_of_cons. intuition congruence.
Qed.

(** [Path], the URL path split at its slashes without the first piece:
    for a path that starts with a slash, the pieces hold no slash and,
    joined by slashes, give back the path after its first slash. *)
Theorem path_pieces_rejoin (rest : string) :
  let Path := tail (splitSlash (String "/" rest)) in
  String.concat "/" Path = rest ∧
  Forall (λ piece, "/"%char ∉ list_ascii_of_string piece) Path ∧
  Path ≠ [].
Proof.
  simpl. split; [apply concat_splitSlash |].
  split; [apply splitSlash_no_slash | apply splitSlash_nonempty].
Qed.

(** ** The booking handlers behind the wrapper *)

Section BehindTheWrapper.
Context {DB : Type} `{!Services DB} `{!Codec}.
Variable Marshal : Response Payload → result string (list Byte.byte).
Variable describe : APIError → GoError.

(** A request that reaches the wrapper without an X-User-ID header (the
    header look-up gives the empty text) and with a readable body is
    answered, by each of the six handlers that test [r.UserID], with the
    reply for ErrUnauthorized: its HTTP code, or 400 if it has none, and
    its text as message; no service is called and the database stays as
    it was. *)
Theorem missing_identity_behind_wrapper now req (d : DB) w body msg :
  (http_Body req = None ∧ body = [] ∨
   ∃ reader, http_Body req = Some reader ∧ ReadAll reader = Ok body ∧
             Close reader = None) →
  http_HeaderGet req "X-User-ID" = "" →
  Marshal (failureResponse (errText (describe ErrUnauthorized))) = Ok msg →
  Forall (λ h : Request → @Handler DB Payload,
            routerHandler Marshal (asHandlerFunc describe h) req
              {| database := d; calls := [] |} w =
            ({| database := d; calls := [] |},
             reply (default 400 (httpErrorCode (describe ErrUnauthorized))) msg w))
    [HandleAcceptPetition now; HandleDenyPetition now; HandleCancelRequest now;
     HandleReturnBooking now; HandleCreateBooking now; HandleRateBooking].
Proof.
  intros Hbody Hheader Hmsg.
  assert (Hrun : ∀ h : Request → @Handler DB Payload,
            (∀ r w0, UserID r = "" → h r w0 = (Error ErrUnauthorized, w0)) →
            routerHandler Marshal (asHandlerFunc describe h) req
              {| database := d; calls := [] |} w =
            ({| database := d; calls := [] |},
             reply (default 400 (httpErrorCode (describe ErrUnauthorized))) msg w)).
  { intros h Hh. unfold routerHandler, asHandlerFunc. cbv zeta.
    destruct Hbody as [[-> ->] | (reader & -> & -> & ->)];
      rewrite Hh by exact Hheader; rewrite Hmsg; reflexivity. }
  repeat (apply Forall_cons_2;
          [ apply Hrun; intros r w0 Hr; handler_unfold;
            by rewrite decide_True by exact Hr |]).
  apply Forall_nil_2.
Qed.

End BehindTheWrapper.

(** * The handler registered for POST /bookings *)

Section InlineRoute.
Context {DB : Type} `{!Services DB} `{!Codec}.

(** The function registered for POST /bookings and HandleCreateBooking do
    the same to the database, on a database whose tool look-up gives the
    tool with the identifier asked for: one returns a booking exactly when
    the other does, and then the same one; both leave the same database
    and make the same writing calls.  They differ in the errors: where
    [Create] fails, the registered function returns the error of [Create]
    itself, HandleCreateBooking the dates-conflict error for the conflict
    text and the internal server error for any other. *)
Theorem routerPostBookings_agrees now r (d : DB) :
  (∀ id tool, GetToolByID d id = Ok (Some tool) → Tool_ID tool = id) →
  let inline := routerPostBookings now r {| database := d; calls := [] |} in
  let handled := run (HandleCreateBooking now r) d in
  (∀ p, inline.1 = Ok p ↔ handled.1 = Ok p) ∧
  database inline.2 = database handled.2 ∧
  filter (λ c, isWrite c = true) (calls inline.2)
    = filter (λ c, isWrite c = true) (calls handled.2) ∧
  (∀ err, inline.1 = Error (RouteCreate err) →
     handled.1 = Error (if decide (err = db.ErrBookingDatesConflict)
                        then ErrBookingDatesConflict
                        else ErrInternalServerError)).
Proof.
  intros Htool. unfold routerPostBookings. handler_unfold. simpl.
  destruct (decide (UserID r = "")) as [Hu|Hu]; simpl.
  { repeat split; intros; simplify_eq; done. }
  destruct (GetUserByEmail d (UserID r)) as [fromUser|] eqn:Hfrom; simpl;
  destruct (UnmarshalCreateBookingRequest (Data r)) as [req|] eqn:Hreq; simpl;
    try (repeat split; intros; simplify_eq; done);
  destruct (ParseInt (cbr_ToolID req)) as [toolID|] eqn:Hid; simpl;
    try (repeat split; intros; simplify_eq; done);
  (destruct (GetToolByID d toolID) as [[tool|]|err] eqn:Hget; simpl;
    try (repeat split; intros; simplify_eq; done)).
  rewrite (Htool _ _ Hget).
  destruct (GetUserByID d (Tool_UserID tool)) as [toUser|] eqn:Hto; simpl;
    try (repeat split; intros; simplify_eq; done).
  destruct (Create now _ (User_ID fromUser) (User_ID toUser) d)
    as [[booking|err] d'] eqn:Hcreate; simpl.
  - repeat split; intros; simplify_eq; done.
  - unfold db.ErrBookingDatesConflict.
    case_decide; repeat split; intros; simplify_eq; try done;
      by (rewrite decide_True by done) || by (rewrite decide_False by done).
Qed.

End InlineRoute.

(** * Registration and login (api/user.go) *)

Section UserProperties.
Import users.
Context {G Document : Type} `{!Backend G Document}.

(** [register] returns nil exactly when the body decodes, its invitation
    token is the one of the server and the insertion of the new user
    returns no error.  The user inserted is active, has rating 50 and
    1000 tokens and the hash of the password, whatever the body says
    about [Active] or [Community].  With a body that does not decode or a
    wrong token the store is not touched. *)
Theorem register_requires_token (registerAuthToken : string) r (g : G) :
  let newUser (userInfo : Register) : UserRow :=
    {| row_Email := UserEmail userInfo;
       row_Password := hashPassword (profile_Password (Register_UserProfile userInfo));
       row_Name := profile_Name (Register_UserProfile userInfo);
       row_Avatar := profile_Avatar (Register_UserProfile userInfo);
       row_Location := profile_Location (Register_UserProfile userInfo);
       row_Active := true;
       row_Rating := 50;
       row_Tokens := 1000 |} in
  ((register registerAuthToken r g).1 = Ok tt ↔
     ∃ userInfo, UnmarshalRegister (Data r) = Some userInfo ∧
                 RegisterAuthToken userInfo = registerAuthToken ∧
                 (ExecInsertUser (newUser userInfo) g).1 = None) ∧
  (∀ userInfo, UnmarshalRegister (Data r) = Some userInfo →
               RegisterAuthToken userInfo = registerAuthToken →
               (register registerAuthToken r g).2
                 = (ExecInsertUser (newUser userInfo) g).2) ∧
  ((∀ userInfo, UnmarshalRegister (Data r) = Some userInfo →
                RegisterAuthToken userInfo ≠ registerAuthToken) →
     (register registerAuthToken r g).2 = g ∧
     (register registerAuthToken r g).1 ∈
       [Error ErrInvalidRequestBodyData; Error ErrInvalidRegisterAuthToken]).
Proof.
  intros newUser. unfold register.
  destruct (UnmarshalRegister (Data r)) as [userInfo|] eqn:Hdec.
  - case_decide as Htok.
    + simpl. split; [split; [done | intros (? & ? & ? & _); simplify_eq] |].
      split; [intros ? ? ?; simplify_eq |].
      intros _. split; [done |]. rewrite !elem_of_cons. by right; left.
    + subst newUser. simpl.
      destruct (ExecInsertUser _ g) as [[err|] g'] eqn:Hins; simpl.
      * split; [split; [done |] |].
        { intros (u & Hu & _ & Hnone). simplify_eq. rewrite Hins in Hnone. done. }
        split; [intros u Hu _; simplify_eq; by rewrite Hins |].
        intros Hall. by destruct (Hall userInfo eq_refl).
      * split; [split; [intros _; exists userInfo; by rewrite Hins |done] |].
        split; [intros u Hu _; simplify_eq; by rewrite Hins |].
        intros Hall. by destruct (Hall userInfo eq_refl).
  - simpl. split; [split; [done | intros (? & ? & _); simplify_eq] |].
    split; [intros ? ?; simplify_eq |].
    intros _. split; [done |]. rewrite !elem_of_cons. by left.
Qed.

(** [login] returns a token only when the body decodes, a user with the
    e-mail of the body is stored and scanned, the stored password is the
    hash of the password of the body, and the token is the one made for
    the stored e-mail. *)
Theorem login_requires_password r (g : G) token :
  login r g = Ok token →
  ∃ loginInfo doc user,
    UnmarshalLogin (Data r) = Some loginInfo ∧
    QueryUserByEmail g (Login_Email loginInfo) = Ok doc ∧
    StructScan doc = Ok user ∧
    row_Password user = hashPassword (Login_Password loginInfo) ∧
    makeToken (row_Email user) = Ok token.
Proof.
  unfold login. intros Hlogin.
  destruct (UnmarshalLogin (Data r)) as [loginInfo|] eqn:Hdec; [| done].
  destruct (QueryUserByEmail g (Login_Email loginInfo)) as [doc|] eqn:Hq; [| done].
  destruct (StructScan doc) as [user|] eqn:Hscan; [| done].
  case_decide as Hpw; [done |].
  destruct (makeToken (row_Email user)) as [tok|] eqn:Htok; [| done].
  simplify_eq. by exists loginInfo, doc, user.
Qed.

(** [login] tells an unknown e-mail from a wrong password: when the query
    for the e-mail fails the error is ErrWrongLogin, "wrong password or
    email"; when the user is found and the password does not match, it is
    another error, made by wrapping a nil error. *)
Theorem login_tells_email_from_password r (g : G) loginInfo :
  UnmarshalLogin (Data r) = Some loginInfo →
  (∀ err, QueryUserByEmail g (Login_Email loginInfo) = Error err →
     login r g = Error ErrWrongLogin) ∧
  (∀ doc user, QueryUserByEmail g (Login_Email loginInfo) = Ok doc →
     StructScan doc = Ok user →
     row_Password user ≠ hashPassword (Login_Password loginInfo) →
     login r g = Error "failed to scan user: %!w(<nil>)" ∧
     login r g ≠ Error ErrWrongLogin).
Proof.
  intros Hdec. unfold login. rewrite Hdec. split.
  - intros err Hq. by rewrite Hq.
  - intros doc user Hq Hscan Hpw. rewrite Hq, Hscan.
    rewrite decide_True by exact Hpw. split; [reflexivity | discriminate].
Qed.

End UserProperties.

(** * Concrete runs of the further properties *)

Lemma transition_succeeds_witness :
  (run (HandleAcceptPetition 100 (petitionRequest "bob@emprius.cat" hex17)) exampleDB).1
    = Ok Nil.
Proof.
  apply (proj2 (@transition_succeeds_iff MemDB MemServices BookingStatusAccepted
                  HandleAcceptPetition 100
                  (petitionRequest "bob@emprius.cat" hex17) exampleDB eq_refl)).
  exists bob, 17%N, booking2. split; [| repeat split].
  apply (addresses_example "bob@emprius.cat"); (reflexivity || discriminate).
Defined.

Lemma transition_writes_witness :
  filter (λ c, isWrite c = true)
    (calls (run (HandleDenyPetition 100 (petitionRequest "bob@emprius.cat" hex17))
              exampleDB).2)
  = [CallUpdateStatus 17 BookingStatusRejected].
Proof.
  assert (Hrun :
    run (HandleDenyPetition 100 (petitionRequest "bob@emprius.cat" hex17)) exampleDB
    = ((run (HandleDenyPetition 100 (petitionRequest "bob@emprius.cat" hex17))
            exampleDB).1,
       (run (HandleDenyPetition 100 (petitionRequest "bob@emprius.cat" hex17))
            exampleDB).2)) by (vm_compute; reflexivity).
  destruct (transition_writes_at_most_once BookingStatusRejected HandleDenyPetition
              100 _ _ _ _ eq_refl Hrun)
    as [[Hnone _] | (id & Hid & Hone & _)].
  - vm_compute in Hnone. discriminate Hnone.
  - vm_compute in Hid. injection Hid as <-. exact Hone.
Defined.

Lemma create_booking_parties_witness :
  let codec := bodyCodec (Some (createBody 3)) None in
  let r := createRequest "alice@emprius.cat" in
  ∃ fromUser req toolID tool toUser,
    GetUserByEmail exampleDB (UserID r) = Some fromUser ∧
    User_ID alice = User_ID fromUser ∧
    UnmarshalCreateBookingRequest (Codec := codec) (Data r) = Some req ∧
    ParseInt (Codec := codec) (cbr_ToolID req) = Some toolID ∧
    GetToolByID exampleDB toolID = Ok (Some tool) ∧
    GetUserByID exampleDB (Tool_UserID tool) = Some toUser ∧
    User_ID bob = User_ID toUser ∧
    {| req_ToolID := "1"; req_StartDate := 3 * day; req_EndDate := 4 * day;
       req_Contact := "test3@test.com"; req_Comments := "Test booking 3" |}
    = {| req_ToolID := FormatInt (Codec := codec) toolID;
         req_StartDate := time_Unix (cbr_StartDate req) 0;
         req_EndDate := time_Unix (cbr_EndDate req) 0;
         req_Contact := cbr_Contact req;
         req_Comments := cbr_Comments req |}.
Proof.
  intros codec r.
  refine (@create_booking_parties MemDB MemServices codec 100 r exampleDB
            (run (HandleCreateBooking 100 r) exampleDB).1
            (run (HandleCreateBooking 100 r) exampleDB).2
            {| req_ToolID := "1"; req_StartDate := 3 * day; req_EndDate := 4 * day;
               req_Contact := "test3@test.com"; req_Comments := "Test booking 3" |}
            (User_ID alice) (User_ID bob) _ _).
  - vm_compute. reflexivity.
  - vm_compute. apply list_elem_of_here.
Defined.

Lemma create_booking_failure_witness :
  let codec := bodyCodec (Some (createBody 1)) None in
  let out := run (HandleCreateBooking (H := codec) 100
                    (createRequest "alice@emprius.cat")) exampleDB in
  out.1 = Error ErrBookingDatesConflict ∧
  ∃ dbReq fromUserID toUserID,
    Create 100 dbReq fromUserID toUserID exampleDB
      = (Error db.ErrBookingDatesConflict, database out.2) ∧
    filter (λ c, isWrite c = true) (calls out.2)
      = [CallCreate dbReq fromUserID toUserID].
Proof.
  intros codec out. split; [vm_compute; reflexivity |].
  refine (proj2 (@create_booking_failure MemDB MemServices codec 100
                   (createRequest "alice@emprius.cat") exampleDB
                   ErrBookingDatesConflict out.2 _) eq_refl).
  vm_compute. reflexivity.
Defined.

Lemma rate_booking_sound_witness :
  let codec := bodyCodec None (Some {| Rating := 4; BookingID := hex16 |}) in
  let r := rateRequest "alice@emprius.cat" in
  ∃ user rateReq id b,
    UserID r ≠ "" ∧
    GetUserByEmail exampleDB (UserID r) = Some user ∧
    UnmarshalRateRequest (Codec := codec) (Data r) = Some rateReq ∧
    ObjectIDFromHex (BookingID rateReq) = Some id ∧
    Get exampleDB id = Ok (Some b) ∧
    (FromUserID b = User_ID user ∨ ToUserID b = User_ID user) ∧
    1 ≤ Rating rateReq ≤ 5 ∧
    Nil = Nil.
Proof.
  intros codec r.
  refine (@rate_booking_sound MemDB MemServices codec r exampleDB Nil
            (run (HandleRateBooking r) exampleDB).2 _).
  vm_compute. reflexivity.
Defined.

Lemma response_id_witness :
  run (HandleGetBooking
         (bookingRequest "" (resp_ID (convertBookingToResponse booking1)))) exampleDB
  = (Ok (OneBooking (convertBookingToResponse booking1)),
     {| database := exampleDB; calls := [CallGet 16] |}).
Proof.
  refine (@response_id_fetches_booking MemDB MemServices exampleDB
            (bookingRequest "" (resp_ID (convertBookingToResponse booking1)))
            booking1 _ _ _).
  - vm_compute. reflexivity.
  - reflexivity.
  - reflexivity.
Defined.

Lemma response_dates_witness :
  resp_StartDate (convertBookingToResponse booking1) = 86400 ∧
  resp_EndDate (convertBookingToResponse booking1) = 172800.
Proof.
  assert (Hs : StartDate booking1 = time_Unix 86400 0) by (vm_compute; reflexivity).
  assert (He : EndDate booking1 = time_Unix 172800 0) by (vm_compute; reflexivity).
  assert (Hn : 0 ≤ 0 < nanosPerSecond)
    by (vm_compute; split; [discriminate | reflexivity]).
  exact (response_dates_are_whole_seconds booking1 86400 0 172800 0 Hs He Hn Hn).
Defined.

Lemma listing_handlers_witness :
  (run (HandleGetBookingPetitions (ListServices0 := listedBookings [booking1; booking2])
          (rateRequest "bob@emprius.cat")) exampleDB).1
  = Ok [convertBookingToResponse booking1; convertBookingToResponse booking2].
Proof.
  refine (proj1 (proj2 (proj2
            (@listing_handlers_convert_in_order MemDB MemServices
               (listedBookings [booking1; booking2]) exampleDB
               (rateRequest "bob@emprius.cat") bob _ _)))).
  - discriminate.
  - reflexivity.
Defined.

Lemma Send_frames_witness :
  ∃ body,
    Send alwaysWrites false (list_byte_of_string "ok") 200 [] =
      (None,
       ([] ++ [CallHeaderSet "Content-Length" "3";
               CallHeaderSet "Content-Type" "application/json";
               CallWriteHeader 200] ++ body)%list) ∧
    written body = (list_byte_of_string "ok" ++ newline)%list ∧
    Forall (λ c, ∃ bytes, c = CallWrite bytes ∧ bytes ≠ []) body.
Proof.
  refine (Send_frames_message alwaysWrites (list_byte_of_string "ok") 200 [] _ _).
  - lia.
  - reflexivity.
Defined.

Lemma routerHandler_ok_witness :
  let handlerFunc := asHandlerFunc exampleDescribe (HandleAcceptPetition 100) in
  let req := acceptHttpRequest "bob@emprius.cat" in
  let s := {| database := exampleDB; calls := [] |} in
  (∃ body handlerResp s',
     handlerFunc (handedRequest req body) s = (Ok handlerResp, s') ∧
     messageMarshal
       {| Response_Header := {| Success := true; Message := ""; ErrorCode := 0 |};
          Response_Data := Some handlerResp |} = Ok []) ∨
  (∃ body err s',
     handlerFunc (handedRequest req body) s = (Error err, s') ∧
     httpErrorCode err = Some 200).
Proof.
  intros handlerFunc req s.
  refine (routerHandler_ok_status messageMarshal handlerFunc req s [] [] _).
  vm_compute. reflexivity.
Defined.


Lemma missing_identity_witness :
  Forall (λ h : Request → @Handler MemDB Payload,
            routerHandler messageMarshal (asHandlerFunc exampleDescribe h)
              (acceptHttpRequest "") {| database := exampleDB; calls := [] |} [] =
            ({| database := exampleDB; calls := [] |},
             reply 401 (list_byte_of_string "unauthorized") []))
    [HandleAcceptPetition 100; HandleDenyPetition 100; HandleCancelRequest 100;
     HandleReturnBooking 100;
     HandleCreateBooking (H := bodyCodec None None) 100;
     HandleRateBooking (H := bodyCodec None None)].
Proof.
  refine (@missing_identity_behind_wrapper MemDB MemServices (bodyCodec None None)
            messageMarshal exampleDescribe 100 (acceptHttpRequest "") exampleDB
            [] [] (list_byte_of_string "unauthorized") _ _ _).
  - left. split; reflexivity.
  - reflexivity.
  - reflexivity.
Defined.

Lemma exampleDB_tool_lookup (id : Z) (tool : Tool) :
  GetToolByID exampleDB id = Ok (Some tool) → Tool_ID tool = id.
Proof.
  simpl. unfold MemGetToolByID. simpl.
  destruct (decide (1 = id)) as [<- | Hne].
  - intros Heq. injection Heq as <-. reflexivity.
  - rewrite filter_cons_False by exact Hne. discriminate.
Defined.

Lemma routerPostBookings_witness :
  let codec := bodyCodec (Some (createBody 3)) None in
  let r := createRequest "alice@emprius.cat" in
  let inline := routerPostBookings (H := codec) 100 r
                  {| database := exampleDB; calls := [] |} in
  let handled := run (HandleCreateBooking (H := codec) 100 r) exampleDB in
  (∃ p, inline.1 = Ok p ∧ handled.1 = Ok p) ∧
  database inline.2 = database handled.2.
Proof.
  intros codec r inline handled.
  pose proof (@routerPostBookings_agrees MemDB MemServices codec 100 r exampleDB
                exampleDB_tool_lookup) as (Hsame & Hdb & _).
  split; [| exact Hdb].
  destruct inline.1 as [p|e] eqn:Hinline.
  - exists p. split; [reflexivity |].
    apply (proj1 (Hsame p)). exact Hinline.
  - vm_compute in Hinline. discriminate Hinline.
Defined.

Lemma login_witness :
  ∃ loginInfo doc user,
    users.UnmarshalLogin
      (Backend := listBackend None (Some (users.mkLogin "dave@emprius.cat" "secret")))
      (Data (rateRequest "")) = Some loginInfo ∧
    users.QueryUserByEmail
      (Backend := listBackend None (Some (users.mkLogin "dave@emprius.cat" "secret")))
      [dave] (users.Login_Email loginInfo) = Ok doc ∧
    users.StructScan
      (Backend := listBackend None (Some (users.mkLogin "dave@emprius.cat" "secret")))
      doc = Ok user ∧
    users.row_Password user =
      users.hashPassword
        (Backend := listBackend None (Some (users.mkLogin "dave@emprius.cat" "secret")))
        (users.Login_Password loginInfo) ∧
    users.makeToken
      (Backend := listBackend None (Some (users.mkLogin "dave@emprius.cat" "secret")))
      (users.row_Email user)
      = Ok {| users.Token := "dave@emprius.cat"; users.Expirity := 0 |}.
Proof.
  refine (@login_requires_password _ _
            (listBackend None (Some (users.mkLogin "dave@emprius.cat" "secret")))
            (rateRequest "") [dave]
            {| users.Token := "dave@emprius.cat"; users.Expirity := 0 |} _).
  vm_compute. reflexivity.
Defined.

Lemma login_wrong_password_witness :
  users.login
    (Backend0 := listBackend None (Some (users.mkLogin "dave@emprius.cat" "guess")))
    (rateRequest "") [dave]
  = Error "failed to scan user: %!w(<nil>)" ∧
  users.login
    (Backend0 := listBackend None (Some (users.mkLogin "dave@emprius.cat" "guess")))
    (rateRequest "") [dave]
  ≠ Error users.ErrWrongLogin.
Proof.
  refine (proj2 (@login_tells_email_from_password _ _
            (listBackend None (Some (users.mkLogin "dave@emprius.cat" "guess")))
            (rateRequest "") [dave] (users.mkLogin "dave@emprius.cat" "guess") _)
            dave dave _ _ _).
  - reflexivity.
  - reflexivity.
  - reflexivity.
  - vm_compute. discriminate.
Defined.
